(** * message-receiver: the popup side of the token hand-over

    A shallow embedding of [src/secure-comm.js] (class [SecureCommunication])
    and [src/token-storage.js] (class [TokenStorage]), and the properties of
    the handshake-and-transfer protocol proved about them.

    Conventions of the embedding.
    - A JavaScript value that travels in a message is a [value]; objects are
      association lists in key order.
    - A method of the class is a function from the session (the fields of
      [this]) and the [world] it runs in (clock, [window.opener],
      [window.location], the DOM, the random source) to the new session and
      the list of effects it performed, in program order.
    - Calls that leave the class (console, DOM writes, [postMessage], the
      token store, the registered callback, timers, listeners) are recorded as
      [effect]s.
    - The token store is the [TokenStorage] of this repository and is run;
      the registered callback is called, not run: what it does to the page,
      and an exception it may throw, are outside the embedding.
    - All times are milliseconds since the epoch, as [Date.getTime] gives
      them. One handler invocation reads the clock as one instant [now].
    - Numbers are integers; values that a plain JSON-like message does not
      hold (BigInt, Date, Map, typed arrays) are not modelled. *)

From Stdlib Require Import ZArith String Ascii List Bool Lia DecimalString.
Import ListNotations.
Open Scope string_scope.
Open Scope list_scope.
Open Scope Z_scope.

(** ** JavaScript values *)

#[warnings="-register-all"]
Inductive value : Type :=
| VUndefined
| VNull
| VBool (b : bool)
| VNum (n : Z)
| VStr (s : string)
| VObj (fields : list (string * value)).

(** [!!v]: the values the source tests with [!x] and [||]. *)
Definition truthy (v : value) : bool :=
  match v with
  | VUndefined | VNull => false
  | VBool b => b
  | VNum n => negb (n =? 0)
  | VStr s => negb (s =? "")%string
  | VObj _ => true
  end.

Fixpoint lookup (k : string) (fs : list (string * value)) : value :=
  match fs with
  | [] => VUndefined
  | (k', v) :: rest => if (k' =? k)%string then v else lookup k rest
  end.

(** [v.k]. On a primitive the property is [undefined]; the source guards
    every access whose receiver may be [null] or [undefined]. *)
Definition get (v : value) (k : string) : value :=
  match v with
  | VObj fs => lookup k fs
  | _ => VUndefined
  end.

(** [{...fs, k: v}]: an existing key keeps its place, a new one goes last. *)
Fixpoint assign (k : string) (v : value) (fs : list (string * value))
  : list (string * value) :=
  match fs with
  | [] => [(k, v)]
  | (k', v') :: rest =>
      if (k' =? k)%string then (k', v) :: rest else (k', v') :: assign k v rest
  end.

(** [delete o.k] on the fields of an object. *)
Fixpoint remove_key (k : string) (fs : list (string * value))
  : list (string * value) :=
  match fs with
  | [] => []
  | (k', v') :: rest =>
      if (k' =? k)%string then remove_key k rest else (k', v') :: remove_key k rest
  end.

(** The own fields that [{...v}] copies. *)
Definition spread (v : value) : list (string * value) :=
  match v with
  | VObj fs => fs
  | _ => []
  end.

(** [a || b] *)
Definition js_or (a b : value) : value := if truthy a then a else b.

(** [v === 'lit'] *)
Definition is_str (v : value) (lit : string) : bool :=
  match v with
  | VStr s => (s =? lit)%string
  | _ => false
  end.

(** ** The world outside the class *)

Definition window := nat.
Definition function := nat.

Inductive level := Log | Warn | Error.

Inductive timer := HandshakeStart | HandshakeTimeout.

Inductive effect : Type :=
| Console (l : level) (text : string) (arg : value)
| SetClassName (id : string) (className : string)
| SetTextContent (id : string) (content : value)
| ClassListAdd (id : string) (cls : string)
| ClassListRemove (id : string) (cls : string)
| PostMessage (target : window) (message : value) (targetOrigin : string)
| StoreTokens (tokens : value) (metadata : value)
| Callback (f : function) (tokens : value) (metadata : value)
| AddMessageListener
| RemoveMessageListener
| SetTimeout (t : timer) (delay : Z).

Record world : Type := {
  now : Z;                        (* new Date().getTime() *)
  opener : option window;         (* window.opener *)
  location_origin : string;       (* window.location.origin *)
  element : string -> bool;       (* document.getElementById(id) is not null *)
  postMessage_throws : bool;      (* the platform refuses the dispatch *)
  random_byte : nat -> Z          (* window.crypto.getRandomValues *)
}.

(** ** token-storage.js *)

Record TokenStorage : Type := {
  ts_debug : bool;
  accessToken : value;
  refreshToken : value;
  tokenMetadata : value
}.

(** A session field that holds what [onTokensReceived] was given. *)
Inductive callback : Type :=
| Unregistered
| IsFunction (f : function)
| NotFunction (v : value).

(** ** secure-comm.js: the session *)

Record config : Type := {
  senderOrigin : string;
  debug : bool
}.

Record session : Type := {
  cfg : config;
  sourceWindow : option window;
  handshakeComplete : bool;
  connectionStatus : string;
  tokenStorage : option TokenStorage;
  tokensReceivedCallback : callback
}.

Record options : Type := {
  opt_senderOrigin : option string;
  opt_debug : option bool;
  opt_tokenStorage : option TokenStorage
}.

Record MessageEvent : Type := {
  origin : string;
  data : value;
  source : option window
}.

(** The platform's [Date]: [Date_time v] is the time value of [new Date(v)],
    [None] for an Invalid Date (whose time value is NaN, so that every
    comparison with it is false); [toISOString t] prints a time value. *)
Class Platform : Type := {
  Date_time : value -> option Z;
  toISOString : Z -> string
}.

Section Embedding.

Context `{P : Platform}.

(** *** TokenStorage *)

Definition new_TokenStorage (dbg : bool) : TokenStorage :=
  {| ts_debug := dbg; accessToken := VNull; refreshToken := VNull;
     tokenMetadata := VNull |}.

Definition storeTokens (w : world) (st : TokenStorage) (tokens metadata : value)
  : bool * TokenStorage * list effect :=
  if negb (truthy tokens) || negb (truthy (get tokens "accessToken"))
     || negb (truthy (get tokens "refreshToken"))
  then (false, st, [])
  else
    (true,
     {| ts_debug := ts_debug st;
        accessToken := get tokens "accessToken";
        refreshToken := get tokens "refreshToken";
        tokenMetadata :=
          VObj (assign "receivedAt" (VStr (toISOString (now w))) (spread metadata)) |},
     if ts_debug st
     then [Console Log "[TokenStorage] Tokens stored successfully" VUndefined]
     else []).

Definition getTokenMetadata (st : TokenStorage) : value :=
  VObj (spread (tokenMetadata st)).

Definition hasTokens (st : TokenStorage) : bool :=
  truthy (accessToken st) && truthy (refreshToken st).

Definition clearTokens (st : TokenStorage) : TokenStorage * list effect :=
  ({| ts_debug := ts_debug st; accessToken := VNull; refreshToken := VNull;
      tokenMetadata := VNull |},
   if ts_debug st then [Console Log "[TokenStorage] Tokens cleared" VUndefined]
   else []).

(** *** SecureCommunication *)

Definition constructor (o : options) : session :=
  {| cfg := {| senderOrigin :=
                 match opt_senderOrigin o with
                 | Some so => so
                 | None => "http://localhost:3002"
                 end;
               debug :=
                 match opt_debug o with
                 | Some d => d
                 | None => false
                 end |};
     sourceWindow := None;
     handshakeComplete := false;
     connectionStatus := "disconnected";
     tokenStorage := opt_tokenStorage o;
     tokensReceivedCallback := Unregistered |}.

Definition init (s : session) : session * list effect :=
  (s,
   [AddMessageListener]
   ++ (if debug (cfg s)
       then [Console Log "[WebApp B] Secure communication manager initialized" VUndefined]
       else [])
   ++ [SetTimeout HandshakeStart 1000]).

Definition onTokensReceived (s : session) (cb : callback) : session :=
  {| cfg := cfg s; sourceWindow := sourceWindow s;
     handshakeComplete := handshakeComplete s;
     connectionStatus := connectionStatus s;
     tokenStorage := tokenStorage s;
     tokensReceivedCallback := cb |}.

Definition setTokenStorage (s : session) (ts : option TokenStorage) : session :=
  {| cfg := cfg s; sourceWindow := sourceWindow s;
     handshakeComplete := handshakeComplete s;
     connectionStatus := connectionStatus s;
     tokenStorage := ts;
     tokensReceivedCallback := tokensReceivedCallback s |}.

(** [_updateStatus(message, type)] *)
Definition _updateStatus (w : world) (s : session) (message kind : string)
  : list effect :=
  (if element w "statusContainer" && element w "statusMessage"
   then [SetClassName "statusContainer" ("status " ++ kind)%string;
         SetTextContent "statusMessage" (VStr message)]
   else [])
  ++ (if debug (cfg s) then [Console Log ("[WebApp B] " ++ message)%string VUndefined]
      else []).

(** [_generateId(length)]: one character of the 62-character alphabet per
    random octet. *)
Definition characters : string :=
  "ABCDEFGHIJKLMNOPQRSTUVWXYZabcdefghijklmnopqrstuvwxyz0123456789".

Definition charAt (s : string) (i : Z) : string :=
  match String.get (Z.to_nat i) s with
  | Some c => String c EmptyString
  | None => ""
  end.

Definition _generateId (w : world) (length : nat) : string :=
  fold_left
    (fun result i =>
       (result ++ charAt characters
                    ((random_byte w i mod 256) mod Z.of_nat (String.length characters)))%string)
    (seq 0 length) "".

(** The body of the timer armed by [initiateHandshake]. *)
Definition handshakeTimeout (w : world) (s : session) : session * list effect :=
  if negb (handshakeComplete s)
  then (s, _updateStatus w s "Handshake timed out. Please try again." "error")
  else (s, []).

Definition handshakeRequest (w : world) : value :=
  VObj [("type", VStr "HANDSHAKE_REQUEST");
        ("requestId", VStr (_generateId w 32));
        ("data", VObj [("timestamp", VStr (toISOString (now w)));
                       ("receiver", VStr (location_origin w))])].

Definition initiateHandshake (w : world) (s : session)
  : bool * session * list effect :=
  match opener w with
  | None =>
      (false, s,
       _updateStatus w s "Error: Cannot establish connection to parent window" "error")
  | Some op =>
      if postMessage_throws w
      then (false, s,
            [PostMessage op (handshakeRequest w) (senderOrigin (cfg s))]
            ++ (if debug (cfg s)
                then [Console Error "[WebApp B] Error initiating handshake:" VUndefined]
                else [])
            ++ _updateStatus w s "Error establishing connection to Web App A" "error")
      else (true, s,
            [PostMessage op (handshakeRequest w) (senderOrigin (cfg s))]
            ++ _updateStatus w s "Handshake initiated with Web App A" "pending"
            ++ [SetTimeout HandshakeTimeout 30000])
  end.

Definition disconnect (s : session) : session * list effect :=
  ({| cfg := cfg s; sourceWindow := None;
      handshakeComplete := false;
      connectionStatus := "disconnected";
      tokenStorage := tokenStorage s;
      tokensReceivedCallback := tokensReceivedCallback s |},
   [RemoveMessageListener]
   ++ (if debug (cfg s)
       then [Console Log "[WebApp B] Communication manager disconnected" VUndefined]
       else [])).

(** [_updateTokenInfo()] *)
Definition _updateTokenInfo (w : world) (s : session) : list effect :=
  match tokenStorage s with
  | None => []
  | Some st =>
      if negb (element w "tokenInfoContainer") then []
      else if hasTokens st then
        let metadata := js_or (getTokenMetadata st) (VObj []) in
        (if element w "userIdDisplay"
         then [SetTextContent "userIdDisplay"
                 (js_or (get metadata "userId") (VStr "Unknown"))]
         else [])
        ++ (if element w "tokenStatusDisplay"
            then [SetTextContent "tokenStatusDisplay" (VStr "Valid")]
            else [])
        ++ (if element w "tokenReceivedAtDisplay"
            then [SetTextContent "tokenReceivedAtDisplay"
                    (js_or (get metadata "receivedAt") (VStr (toISOString (now w))))]
            else [])
        ++ [ClassListRemove "tokenInfoContainer" "hidden"]
      else [ClassListAdd "tokenInfoContainer" "hidden"]
  end.

(** [_sendMessage(message)] *)
Definition secureMessage (w : world) (message : value) : value :=
  VObj (assign "metadata"
          (VObj [("timestamp", VStr (toISOString (now w)));
                 ("sender", VStr (location_origin w))])
          (spread message)).

Definition isSome {A : Type} (o : option A) : bool :=
  match o with
  | Some _ => true
  | None => false
  end.

(** [target.postMessage(secureMessage, senderOrigin)] inside the [try] of
    [_sendMessage], with what follows it on either exit. *)
Definition post (w : world) (s : session) (target : window) (message : value)
  : bool * list effect :=
  if postMessage_throws w
  then (false,
        [PostMessage target (secureMessage w message) (senderOrigin (cfg s))]
        ++ (if debug (cfg s)
            then [Console Error "[WebApp B] Error sending message:" VUndefined]
            else [])
        ++ _updateStatus w s "Error communicating with Web App A" "error")
  else (true,
        [PostMessage target (secureMessage w message) (senderOrigin (cfg s))]
        ++ (if debug (cfg s)
            then [Console Log "[WebApp B] Message sent: " (get message "type")]
            else [])).

Definition _sendMessage (w : world) (s : session) (message : value)
  : bool * list effect :=
  if negb (isSome (sourceWindow s)) && negb (isSome (opener w))
  then (false,
        if debug (cfg s) && negb (is_str (get message "type") "HANDSHAKE_REQUEST")
        then [Console Warn
                "[WebApp B] Cannot send message: No valid connection to source window"
                VUndefined]
        else [])
  else
    match opener w, sourceWindow s with
    | Some op, sw =>
        if is_str (get message "type") "HANDSHAKE_REQUEST"
        then post w s op message
        else match sw with
             | Some t => post w s t message
             | None => (false, [])
             end
    | None, Some t => post w s t message
    | None, None => (false, [])
    end.

(** JavaScript's [>] and [-] on numbers, [None] being NaN. *)
Definition js_gt (a b : option Z) : bool :=
  match a, b with
  | Some x, Some y => x >? y
  | _, _ => false
  end.

Definition js_sub (a b : option Z) : option Z :=
  match a, b with
  | Some x, Some y => Some (x - y)
  | _, _ => None
  end.

(** [_isMessageValid(message)]. [new Date] does not throw on a [value], so
    the [catch] of the source has no case here. *)
Definition _isMessageValid (w : world) (s : session) (message : value)
  : bool * list effect :=
  if negb (truthy (get message "metadata"))
     || negb (truthy (get (get message "metadata") "timestamp"))
     || negb (truthy (get (get message "metadata") "expiresAt"))
  then (false, [])
  else
    let expiresAt := Date_time (get (get message "metadata") "expiresAt") in
    let timestamp := Date_time (get (get message "metadata") "timestamp") in
    if js_gt (Some (now w)) expiresAt
    then (false,
          if debug (cfg s)
          then [Console Warn "[WebApp B] Received expired message" VUndefined]
          else [])
    else if js_gt timestamp (Some (now w + 60000))
    then (false,
          if debug (cfg s)
          then [Console Warn "[WebApp B] Received message with future timestamp"
                  VUndefined]
          else [])
    else if js_gt (js_sub (Some (now w)) timestamp) (Some 120000)
    then (false,
          if debug (cfg s)
          then [Console Warn "[WebApp B] Received message is too old" VUndefined]
          else [])
    else (true, []).

(** [handleMessage(event)], first half (the guards before the [switch]):
    whether the message goes on to the [switch], and what was logged. *)
Definition accepts (w : world) (s : session) (ev : MessageEvent)
  : bool * list effect :=
  if negb (origin ev =? senderOrigin (cfg s))%string
  then (false,
        if debug (cfg s)
        then [Console Warn "[WebApp B] Rejected message from unauthorized origin: "
                (VStr (origin ev))]
        else [])
  else
    let message := data ev in
    if negb (truthy message) || negb (truthy (get message "type"))
    then (false, [])
    else if negb (is_str (get message "type") "HANDSHAKE_RESPONSE")
    then _isMessageValid w s message
    else (true, []).

Definition connected (s : session) (src : option window) : session :=
  {| cfg := cfg s; sourceWindow := src;
     handshakeComplete := true;
     connectionStatus := "connected";
     tokenStorage := tokenStorage s;
     tokensReceivedCallback := tokensReceivedCallback s |}.

Definition with_tokenStorage (s : session) (st : TokenStorage) : session :=
  {| cfg := cfg s; sourceWindow := sourceWindow s;
     handshakeComplete := handshakeComplete s;
     connectionStatus := connectionStatus s;
     tokenStorage := Some st;
     tokensReceivedCallback := tokensReceivedCallback s |}.

Definition storeMetadata (s : session) (userId issuedAt : value) : value :=
  VObj [("userId", userId); ("issuedAt", issuedAt);
        ("source", VStr (senderOrigin (cfg s)))].

Definition tokenReceived (w : world) (message : value) : value :=
  VObj [("type", VStr "TOKEN_RECEIVED");
        ("requestId", get message "requestId");
        ("data", VObj [("success", VBool true);
                       ("timestamp", VStr (toISOString (now w)))])].

(** The [TOKEN_TRANSFER] case once the handshake is known to be complete. *)
Definition tokenTransfer (w : world) (s : session) (message : value)
  : session * list effect :=
  let d := js_or (get message "data") (VObj []) in
  let tokens := get d "tokens" in
  let userId := get d "userId" in
  let issuedAt := get d "issuedAt" in
  if negb (truthy tokens) || negb (truthy (get tokens "accessToken"))
     || negb (truthy (get tokens "refreshToken"))
  then (s, _updateStatus w s "Error: Received invalid token data" "error")
  else
    let '(s1, stored) :=
      match tokenStorage s with
      | Some st =>
          let '(_, st', logged) :=
            storeTokens w st tokens (storeMetadata s userId issuedAt) in
          (with_tokenStorage s st',
           StoreTokens tokens (storeMetadata s userId issuedAt) :: logged)
      | None => (s, [])
      end in
    (s1,
     stored
     ++ _updateStatus w s1 "Tokens received successfully!" "success"
     ++ _updateTokenInfo w s1
     ++ snd (_sendMessage w s1 (tokenReceived w message))
     ++ match tokensReceivedCallback s1 with
        | IsFunction f =>
            [Callback f tokens (VObj [("userId", userId); ("issuedAt", issuedAt)])]
        | _ => []
        end).

(** [handleMessage(event)], second half: the debug line and the [switch]. *)
Definition dispatch (w : world) (s : session) (ev : MessageEvent)
  : session * list effect :=
  let message := data ev in
  let received :=
    if debug (cfg s)
    then [Console Log "[WebApp B] Received message: " (get message "type")]
    else [] in
  if is_str (get message "type") "HANDSHAKE_RESPONSE"
  then (connected s (source ev),
        received
        ++ _updateStatus w (connected s (source ev))
             "Connected to Web App A and waiting for tokens..." "pending")
  else if is_str (get message "type") "TOKEN_TRANSFER"
  then
    if negb (handshakeComplete s)
    then (s,
          received
          ++ _updateStatus w s
               "Security error: Received tokens before handshake completion" "error")
    else
      let '(s', done) := tokenTransfer w s message in (s', received ++ done)
  else (s, received).

Definition handleMessage (w : world) (s : session) (ev : MessageEvent)
  : session * list effect :=
  let '(ok, logged) := accepts w s ev in
  if ok
  then let '(s', done) := dispatch w s ev in (s', logged ++ done)
  else (s, logged).

(** ** Runs of the session

    What the page can do to a session once it is constructed: the public
    methods, the two timer bodies and the delivery of a message. *)
Inductive call : Type :=
| Init
| OnTokensReceived (cb : callback)
| SetTokenStorage (ts : option TokenStorage)
| InitiateHandshake
| TimeoutFires
| Disconnect
| Message (ev : MessageEvent).

Definition step (w : world) (s : session) (c : call) : session * list effect :=
  match c with
  | Init => init s
  | OnTokensReceived cb => (onTokensReceived s cb, [])
  | SetTokenStorage ts => (setTokenStorage s ts, [])
  | InitiateHandshake =>
      let '(_, s', done) := initiateHandshake w s in (s', done)
  | TimeoutFires => handshakeTimeout w s
  | Disconnect => disconnect s
  | Message ev => handleMessage w s ev
  end.

Fixpoint run (s : session) (calls : list (world * call)) : session * list effect :=
  match calls with
  | [] => (s, [])
  | (w, c) :: rest =>
      let '(s1, done) := step w s c in
      let '(s2, later) := run s1 rest in
      (s2, done ++ later)
  end.

Definition reachable (s : session) : Prop :=
  exists o calls, s = fst (run (constructor o) calls).

End Embedding.

(** ** Vocabulary of the properties *)

(** The effects that reach another party: a dispatch to a window, a call of
    the token store, a call of the registered callback. *)
Definition outward (e : effect) : bool :=
  match e with
  | PostMessage _ _ _ | StoreTokens _ _ | Callback _ _ _ => true
  | _ => false
  end.

Definition is_store (e : effect) : bool :=
  match e with
  | StoreTokens _ _ => true
  | _ => false
  end.

Definition is_post (e : effect) : bool :=
  match e with
  | PostMessage _ _ _ => true
  | _ => false
  end.

Definition is_callback (e : effect) : bool :=
  match e with
  | Callback _ _ _ => true
  | _ => false
  end.

(** A field is present when the source's test [!x] lets it through. *)
Definition present (v : value) : Prop := truthy v = true.

(** The validator's rules 3 and 4 in the words of the specification: both
    time stamps present, not expired, at most 60 s ahead of the clock, at
    most 120 s old. The bounds speak of the time values of the two fields. *)
Definition fresh `{Platform} (now : Z) (message : value) : Prop :=
  let timestamp := get (get message "metadata") "timestamp" in
  let expiresAt := get (get message "metadata") "expiresAt" in
  present timestamp /\ present expiresAt
  /\ (forall e, Date_time expiresAt = Some e -> now <= e)
  /\ (forall t, Date_time timestamp = Some t -> t <= now + 60000)
  /\ (forall t, Date_time timestamp = Some t -> now - t <= 120000).

(** What the [TOKEN_TRANSFER] case destructures from a message:
    [message.data || {}] and its [tokens]. *)
Definition payload_of (message : value) : value :=
  js_or (get message "data") (VObj []).

Definition tokens_of (message : value) : value :=
  get (payload_of message) "tokens".

(** Every dispatch among [done] names [o] as its target origin. *)
Definition targets_only (o : string) (done : list effect) : Prop :=
  forall t m o', In (PostMessage t m o') done -> o' = o.

(** The event with the [requestId] of its envelope set to [rid], or deleted. *)
Definition with_requestId (rid : option value) (ev : MessageEvent) : MessageEvent :=
  {| origin := origin ev;
     data :=
       match data ev with
       | VObj fs =>
           VObj match rid with
                | Some r => assign "requestId" r fs
                | None => remove_key "requestId" fs
                end
       | v => v
       end;
     source := source ev |}.

(** The two fields that carry the connection state move together. *)
Definition coherent (s : session) : Prop :=
  (handshakeComplete s = true /\ connectionStatus s = "connected")
  \/ (handshakeComplete s = false /\ connectionStatus s = "disconnected").

(** ** A concrete platform and page

    Used to run the handlers on explicit inputs. Time stamps are written as
    numbers of milliseconds ([new Date(n)] has time value [n]); any other
    value is an Invalid Date on this platform. *)

Definition ms_platform : Platform :=
  {| Date_time := fun v => match v with VNum n => Some n | _ => None end;
     toISOString := fun t => NilZero.string_of_int (Z.to_int t) |}.

Section Samples.

#[local] Existing Instance ms_platform.

Definition page : world :=
  {| now := 1749091967000;
     opener := Some 1%nat;
     location_origin := "http://localhost:3003";
     element := fun _ => true;
     postMessage_throws := false;
     random_byte := fun i => Z.of_nat i |}.

Definition app_options : options :=
  {| opt_senderOrigin := Some "http://localhost:3002";
     opt_debug := Some true;
     opt_tokenStorage := Some (new_TokenStorage true) |}.

Definition bare_options : options :=
  {| opt_senderOrigin := None; opt_debug := None; opt_tokenStorage := None |}.

Definition handshake_response (rid : string) (from : window) : MessageEvent :=
  {| origin := "http://localhost:3002";
     data := VObj [("type", VStr "HANDSHAKE_RESPONSE"); ("requestId", VStr rid)];
     source := Some from |}.

Definition fresh_metadata : value :=
  VObj [("timestamp", VNum 1749091966000); ("sender", VStr "http://localhost:3002");
        ("expiresAt", VNum 1749092026000)].

Definition token_transfer (tokens : value) : MessageEvent :=
  {| origin := "http://localhost:3002";
     data := VObj [("type", VStr "TOKEN_TRANSFER"); ("requestId", VStr "r-42");
                   ("data", VObj [("tokens", tokens); ("userId", VStr "u1");
                                  ("issuedAt", VNum 1749091960000)]);
                   ("metadata", fresh_metadata)];
     source := Some 1%nat |}.

(** The same transfer as it would arrive from another origin. *)
Definition foreign_transfer (tokens : value) : MessageEvent :=
  {| origin := "http://localhost:4000";
     data := data (token_transfer tokens);
     source := Some 9%nat |}.

(** A message of an unhandled type with the given time stamps. *)
Definition stamped (timestamp expiresAt : value) : MessageEvent :=
  {| origin := "http://localhost:3002";
     data := VObj [("type", VStr "PING");
                   ("metadata", VObj [("timestamp", timestamp);
                                      ("expiresAt", expiresAt)])];
     source := Some 1%nat |}.

Definition both_tokens : value :=
  VObj [("accessToken", VStr "a"); ("refreshToken", VStr "b")].

Definition access_only : value := VObj [("accessToken", VStr "a")].

(** The session of the application after the handshake completed. *)
Definition app_connected : session :=
  fst (run (constructor app_options)
         [(page, Init); (page, OnTokensReceived (IsFunction 7%nat));
          (page, InitiateHandshake);
          (page, Message (handshake_response "r-1" 1%nat))]).

(** The same for a session built with no options at all. *)
Definition bare_connected : session :=
  fst (run (constructor bare_options)
         [(page, Init); (page, InitiateHandshake);
          (page, Message (handshake_response "r-1" 1%nat))]).

End Samples.

(** ** The rest of the two classes

    The getters of [TokenStorage], a store driven by a sequence of calls, and
    the vocabulary for what [_generateId] and [_sendMessage] produce. *)

Definition getAccessToken (st : TokenStorage) : value := accessToken st.

Definition getRefreshToken (st : TokenStorage) : value := refreshToken st.

Inductive store_call : Type :=
| Store (tokens metadata : value)
| Clear.

Section Store.

Context `{Platform}.

Definition store_step (w : world) (st : TokenStorage) (c : store_call)
  : TokenStorage :=
  match c with
  | Store tokens metadata => snd (fst (storeTokens w st tokens metadata))
  | Clear => fst (clearTokens st)
  end.

Fixpoint store_run (st : TokenStorage) (calls : list (world * store_call))
  : TokenStorage :=
  match calls with
  | [] => st
  | (w, c) :: rest => store_run (store_step w st c) rest
  end.

(** The store holds all three of its variables or none. *)
Definition all_or_nothing (st : TokenStorage) : Prop :=
  (accessToken st = VNull /\ refreshToken st = VNull /\ tokenMetadata st = VNull)
  \/ (truthy (accessToken st) = true /\ truthy (refreshToken st) = true
      /\ exists fs t, tokenMetadata st = VObj fs
                      /\ lookup "receivedAt" fs = VStr (toISOString t)).

End Store.

(** ASCII letters and digits. *)
Definition alphanumeric (c : ascii) : bool :=
  let n := nat_of_ascii c in
  ((65 <=? n) && (n <=? 90) || (97 <=? n) && (n <=? 122)
   || (48 <=? n) && (n <=? 57))%nat.

Fixpoint string_forall (p : ascii -> bool) (s : string) : bool :=
  match s with
  | EmptyString => true
  | String c rest => p c && string_forall p rest
  end.

(** The window [_sendMessage] picks for a message: the opener for a
    HANDSHAKE_REQUEST when there is an opener, the recorded source window in
    every other case. *)
Definition route (w : world) (s : session) (message : value) : option window :=
  if is_str (get message "type") "HANDSHAKE_REQUEST" && isSome (opener w)
  then opener w
  else sourceWindow s.

Definition is_hide (e : effect) : bool :=
  match e with
  | ClassListAdd _ _ => true
  | _ => false
  end.

Section MoreSamples.

#[local] Existing Instance ms_platform.

(** A page that was not opened by another window. *)
Definition orphan_page : world :=
  {| now := 1749091967000;
     opener := None;
     location_origin := "http://localhost:3003";
     element := fun _ => true;
     postMessage_throws := false;
     random_byte := fun i => 200 + Z.of_nat i |}.

Definition ping : value :=
  VObj [("type", VStr "PING"); ("metadata", VStr "mine")].

(** A message this side built with [_sendMessage], sent back to it. *)
Definition echoed_ping : MessageEvent :=
  {| origin := "http://localhost:3002";
     data := secureMessage page ping;
     source := Some 1%nat |}.

(** The acknowledgement of [token_transfer] as the page dispatches it. *)
Definition transfer_ack : value :=
  secureMessage page (tokenReceived page (data (token_transfer both_tokens))).

(** The application's session connected to window 5, on a page opened by
    window 1. *)
Definition connected_to_5 : session := connected (constructor app_options) (Some 5%nat).

Definition app_calls : list (world * call) :=
  [(page, Init); (page, OnTokensReceived (IsFunction 7%nat));
   (page, InitiateHandshake);
   (page, Message (handshake_response "r-1" 1%nat));
   (page, Message (token_transfer both_tokens))].

End MoreSamples.

(** * Properties *)

Section Properties.

Context `{P : Platform}.

(** ** Objects *)

Lemma lookup_assign_other (k k' : string) (v : value) (fs : list (string * value)) :
  k <> k' -> lookup k (assign k' v fs) = lookup k fs.
Proof.
  intros Hk. induction fs as [|[k0 v0] rest IH]; simpl.
  - destruct (String.eqb_spec k' k); [congruence | reflexivity].
  - destruct (String.eqb_spec k0 k') as [->|Hne]; simpl.
    + destruct (String.eqb_spec k' k); [congruence | reflexivity].
    + destruct (String.eqb_spec k0 k); [reflexivity | exact IH].
Qed.

Lemma lookup_assign_same (k : string) (v : value) (fs : list (string * value)) :
  lookup k (assign k v fs) = v.
Proof.
  induction fs as [|[k0 v0] rest IH]; simpl.
  - now rewrite String.eqb_refl.
  - destruct (String.eqb_spec k0 k) as [->|Hne]; simpl.
    + now rewrite String.eqb_refl.
    + destruct (String.eqb_spec k0 k); [congruence | exact IH].
Qed.

Lemma lookup_remove_other (k k' : string) (fs : list (string * value)) :
  k <> k' -> lookup k (remove_key k' fs) = lookup k fs.
Proof.
  intros Hk. induction fs as [|[k0 v0] rest IH]; simpl; [reflexivity|].
  destruct (String.eqb_spec k0 k') as [->|Hne]; simpl.
  - destruct (String.eqb_spec k' k); [congruence | exact IH].
  - destruct (String.eqb_spec k0 k); [reflexivity | exact IH].
Qed.

Lemma is_str_inv (v : value) (lit : string) : is_str v lit = true -> v = VStr lit.
Proof.
  destruct v; simpl; try discriminate.
  intros E. apply String.eqb_eq in E. now subst.
Qed.

Lemma get_object (v : value) (k : string) :
  truthy (get v k) = true -> exists fs, v = VObj fs.
Proof.
  destruct v; simpl; try discriminate. intros _. now eexists.
Qed.

(** ** The status line and the token panel reach nobody *)

Lemma updateStatus_quiet (w : world) (s : session) (message kind : string) :
  filter outward (_updateStatus w s message kind) = [].
Proof.
  unfold _updateStatus.
  destruct (element w "statusContainer" && element w "statusMessage");
    destruct (debug (cfg s)); reflexivity.
Qed.

Lemma updateTokenInfo_quiet (w : world) (s : session) :
  filter outward (_updateTokenInfo w s) = [].
Proof.
  unfold _updateTokenInfo.
  destruct (tokenStorage s) as [st|]; [|reflexivity].
  destruct (element w "tokenInfoContainer"); [|reflexivity]; simpl.
  destruct (hasTokens st); [|reflexivity].
  destruct (element w "userIdDisplay"), (element w "tokenStatusDisplay"),
    (element w "tokenReceivedAtDisplay"); reflexivity.
Qed.

Lemma filter_nil_In {A : Type} (f : A -> bool) (l : list A) (x : A) :
  filter f l = [] -> In x l -> f x = false.
Proof.
  intros Hnil Hin. destruct (f x) eqn:E; [|reflexivity].
  assert (Hx : In x (filter f l)) by (apply filter_In; auto).
  rewrite Hnil in Hx. destruct Hx.
Qed.

(** ** The guards of [handleMessage] *)

Lemma isMessageValid_quiet (w : world) (s : session) (message : value) :
  fst (_isMessageValid w s message) = true -> snd (_isMessageValid w s message) = [].
Proof.
  unfold _isMessageValid.
  repeat match goal with
         | |- context [if ?b then _ else _] => destruct b; simpl
         end; intros; try discriminate; reflexivity.
Qed.

Lemma isMessageValid_console (w : world) (s : session) (message : value) :
  filter outward (snd (_isMessageValid w s message)) = [].
Proof.
  unfold _isMessageValid.
  repeat match goal with
         | |- context [if ?b then _ else _] => destruct b; simpl
         end; reflexivity.
Qed.

Lemma accepts_quiet (w : world) (s : session) (ev : MessageEvent) :
  fst (accepts w s ev) = true -> snd (accepts w s ev) = [].
Proof.
  unfold accepts.
  destruct (negb (origin ev =? senderOrigin (cfg s))%string); [discriminate|].
  destruct (negb (truthy (data ev)) || negb (truthy (get (data ev) "type")));
    [discriminate|].
  destruct (negb (is_str (get (data ev) "type") "HANDSHAKE_RESPONSE"));
    [apply isMessageValid_quiet | reflexivity].
Qed.

Lemma accepts_console (w : world) (s : session) (ev : MessageEvent) :
  filter outward (snd (accepts w s ev)) = [].
Proof.
  unfold accepts.
  destruct (negb (origin ev =? senderOrigin (cfg s))%string).
  { destruct (debug (cfg s)); reflexivity. }
  destruct (negb (truthy (data ev)) || negb (truthy (get (data ev) "type")));
    [reflexivity|].
  destruct (negb (is_str (get (data ev) "type") "HANDSHAKE_RESPONSE"));
    [apply isMessageValid_console | reflexivity].
Qed.

(** [handleMessage] is its guards followed, when they pass, by its [switch]. *)
Lemma handleMessage_split (w : world) (s : session) (ev : MessageEvent) :
  handleMessage w s ev =
  if fst (accepts w s ev) then dispatch w s ev else (s, snd (accepts w s ev)).
Proof.
  unfold handleMessage.
  pose proof (accepts_quiet w s ev) as Hq.
  destruct (accepts w s ev) as [ok logged]; simpl in *.
  destruct ok; [|reflexivity].
  rewrite (Hq eq_refl). now destruct (dispatch w s ev).
Qed.

Lemma accepts_origin (w : world) (s : session) (ev : MessageEvent) :
  fst (accepts w s ev) = true -> origin ev = senderOrigin (cfg s).
Proof.
  unfold accepts.
  destruct (String.eqb_spec (origin ev) (senderOrigin (cfg s))); simpl;
    [trivial | discriminate].
Qed.

(** ** C1 *)

(** C1. A message whose event origin is not the configured sender origin
    leaves every field of the session as it was and performs no effect but,
    in debug mode, one console warning: nothing is dispatched to any window,
    whatever the message holds. *)
Theorem C1_foreign_origin_is_dropped (w : world) (s : session) (ev : MessageEvent) :
  origin ev <> senderOrigin (cfg s) ->
  handleMessage w s ev =
    (s, if debug (cfg s)
        then [Console Warn "[WebApp B] Rejected message from unauthorized origin: "
                (VStr (origin ev))]
        else [])
  /\ filter outward (snd (handleMessage w s ev)) = [].
Proof.
  intros Hne.
  assert (E : handleMessage w s ev =
              (s, if debug (cfg s)
                  then [Console Warn
                          "[WebApp B] Rejected message from unauthorized origin: "
                          (VStr (origin ev))]
                  else [])).
  { unfold handleMessage, accepts.
    destruct (String.eqb_spec (origin ev) (senderOrigin (cfg s))) as [E|_];
      [contradiction | reflexivity]. }
  split; [exact E|].
  rewrite E; simpl. destruct (debug (cfg s)); reflexivity.
Qed.

(** ** C4 *)

Lemma get_falsy (v : value) (k : string) : truthy v = false -> get v k = VUndefined.
Proof. destruct v; simpl; intros E; try reflexivity; discriminate. Qed.

Ltac fresh_bounds :=
  repeat match goal with
         | H : forall x : Z, Some ?a = Some x -> _ |- _ => specialize (H a eq_refl)
         | H : forall x : Z, None = Some x -> _ |- _ => clear H
         end.

Lemma isMessageValid_fresh (w : world) (s : session) (message : value) :
  fst (_isMessageValid w s message) = true <-> fresh (now w) message.
Proof.
  unfold _isMessageValid, fresh, present.
  set (md := get message "metadata").
  destruct (truthy md) eqn:Emd; simpl.
  2:{ rewrite (get_falsy md "timestamp" Emd); simpl.
      split; [discriminate | intros [E _]; discriminate]. }
  destruct (truthy (get md "timestamp")) eqn:Ets; simpl.
  2:{ split; [discriminate | intros [E _]; discriminate]. }
  destruct (truthy (get md "expiresAt")) eqn:Eex; simpl.
  2:{ split; [discriminate | intros (_ & E & _); discriminate]. }
  destruct (Date_time (get md "expiresAt")) as [e|];
    destruct (Date_time (get md "timestamp")) as [t|]; simpl;
    repeat match goal with
           | |- context [?a >? ?b] => destruct (Z.gtb_spec a b); simpl
           end;
    (split;
     [ intros E; try discriminate E;
       repeat split; intros x Hx; try discriminate Hx;
       injection Hx as <-; lia
     | intros (_ & _ & He & Ht1 & Ht2); fresh_bounds; try reflexivity; lia ]).
Qed.

(** When both fields are dates, [fresh] is the three inequalities. *)
Lemma fresh_dates (now : Z) (message : value) (t e : Z) :
  Date_time (get (get message "metadata") "timestamp") = Some t ->
  Date_time (get (get message "metadata") "expiresAt") = Some e ->
  fresh now message <->
  present (get (get message "metadata") "timestamp")
  /\ present (get (get message "metadata") "expiresAt")
  /\ now <= e /\ t <= now + 60000 /\ now - t <= 120000.
Proof.
  intros Et Ee. unfold fresh. rewrite Et, Ee. split.
  - intros (Hp & Hq & He & Ht1 & Ht2). fresh_bounds. auto.
  - intros (Hp & Hq & He & Ht1 & Ht2).
    repeat split; trivial; intros x Hx; injection Hx as <-; assumption.
Qed.


(** ** The HANDSHAKE_RESPONSE case: C3 and C10 *)

Lemma handleMessage_response (w : world) (s : session) (ev : MessageEvent) :
  is_str (get (data ev) "type") "HANDSHAKE_RESPONSE" = true ->
  handleMessage w s ev =
  if (origin ev =? senderOrigin (cfg s))%string
  then (connected s (source ev),
        (if debug (cfg s)
         then [Console Log "[WebApp B] Received message: " (VStr "HANDSHAKE_RESPONSE")]
         else [])
        ++ _updateStatus w (connected s (source ev))
             "Connected to Web App A and waiting for tokens..." "pending")
  else (s, if debug (cfg s)
           then [Console Warn "[WebApp B] Rejected message from unauthorized origin: "
                   (VStr (origin ev))]
           else []).
Proof.
  intros Hresp. pose proof (is_str_inv _ _ Hresp) as Etype.
  unfold handleMessage, accepts, dispatch.
  destruct (origin ev =? senderOrigin (cfg s))%string; simpl; [|reflexivity].
  assert (Hobj : exists fs, data ev = VObj fs)
    by (apply (get_object _ "type"); now rewrite Etype).
  destruct Hobj as [fs Efs].
  rewrite Hresp, Etype, Efs; reflexivity.
Qed.

(** C3, as the code has it. A HANDSHAKE_RESPONSE from the configured origin
    is acted on in every state: the session becomes connected, the window the
    message came from is recorded as the peer, and the status line is
    updated. A duplicate that arrives while connected is not ignored: it
    records its own originating window again and repeats the status update;
    it leaves the session as it was only when it comes from the window
    already recorded. *)
Theorem C3_response_connects_from_any_state
  (w : world) (s : session) (ev : MessageEvent) :
  origin ev = senderOrigin (cfg s) ->
  is_str (get (data ev) "type") "HANDSHAKE_RESPONSE" = true ->
  handleMessage w s ev =
    (connected s (source ev),
     (if debug (cfg s)
      then [Console Log "[WebApp B] Received message: " (VStr "HANDSHAKE_RESPONSE")]
      else [])
     ++ _updateStatus w (connected s (source ev))
          "Connected to Web App A and waiting for tokens..." "pending")
  /\ handshakeComplete (fst (handleMessage w s ev)) = true
  /\ connectionStatus (fst (handleMessage w s ev)) = "connected"
  /\ sourceWindow (fst (handleMessage w s ev)) = source ev
  /\ (handshakeComplete s = true -> connectionStatus s = "connected" ->
      sourceWindow s = source ev -> fst (handleMessage w s ev) = s).
Proof.
  intros Horigin Hresp.
  rewrite (handleMessage_response w s ev Hresp), Horigin, String.eqb_refl; simpl.
  repeat split.
  intros Hc Hs Hw. destruct s; simpl in *; subst. reflexivity.
Qed.

(** C10. Whether and how a HANDSHAKE_RESPONSE is accepted does not depend on
    its [requestId]: two deliveries that differ only there, one of them
    possibly without the field, give the same session and the same effects.
    Nor could it: [initiateHandshake] leaves the session as it found it, so
    the id it generated is not kept anywhere. *)
Theorem C10_response_requestId_is_not_checked
  (w : world) (s : session) (ev : MessageEvent) (rid1 rid2 : option value) :
  is_str (get (data ev) "type") "HANDSHAKE_RESPONSE" = true ->
  handleMessage w s (with_requestId rid1 ev) = handleMessage w s (with_requestId rid2 ev)
  /\ (forall w0, snd (fst (initiateHandshake w0 s)) = s).
Proof.
  intros Hresp. split.
  - assert (Hkeep : forall rid,
               is_str (get (data (with_requestId rid ev)) "type")
                 "HANDSHAKE_RESPONSE" = true).
    { intros rid. unfold with_requestId; simpl.
      destruct (data ev) as [| | | | |fs]; try exact Hresp.
      destruct rid as [r|]; simpl in *.
      - rewrite lookup_assign_other; [exact Hresp | discriminate].
      - rewrite lookup_remove_other; [exact Hresp | discriminate]. }
    rewrite (handleMessage_response w s _ (Hkeep rid1)).
    rewrite (handleMessage_response w s _ (Hkeep rid2)).
    reflexivity.
  - intros w0. unfold initiateHandshake.
    destruct (opener w0); [destruct (postMessage_throws w0)|]; reflexivity.
Qed.

(** ** The TOKEN_TRANSFER case: C9 *)

Lemma handleMessage_transfer (w : world) (s : session) (ev : MessageEvent) :
  fst (accepts w s ev) = true ->
  is_str (get (data ev) "type") "TOKEN_TRANSFER" = true ->
  handshakeComplete s = true ->
  handleMessage w s ev =
    (fst (tokenTransfer w s (data ev)),
     (if debug (cfg s)
      then [Console Log "[WebApp B] Received message: " (VStr "TOKEN_TRANSFER")]
      else [])
     ++ snd (tokenTransfer w s (data ev))).
Proof.
  intros Hacc Htype Hdone. pose proof (is_str_inv _ _ Htype) as Etype.
  rewrite handleMessage_split, Hacc. unfold dispatch.
  rewrite Etype, Hdone; simpl.
  now destruct (tokenTransfer w s (data ev)).
Qed.


(** ** The handshake: C7 and C8 *)

(** C7, as the code has it. [initiateHandshake] arms a 30 000 ms timer when
    its dispatch went through. When the timer fires before the handshake
    completed, the time-out is reported on the status line as an error and
    the session is left exactly as it was: no error state is recorded. When
    the handshake has completed, the fired timer does nothing. *)
Theorem C7_timeout_reports_and_keeps_session (w : world) (s : session) :
  (forall op, opener w = Some op -> postMessage_throws w = false ->
     In (SetTimeout HandshakeTimeout 30000) (snd (initiateHandshake w s)))
  /\ (handshakeComplete s = false ->
      handshakeTimeout w s =
        (s, _updateStatus w s "Handshake timed out. Please try again." "error"))
  /\ (handshakeComplete s = false ->
      element w "statusContainer" = true -> element w "statusMessage" = true ->
      In (SetClassName "statusContainer" "status error")
        (snd (handshakeTimeout w s))
      /\ In (SetTextContent "statusMessage"
               (VStr "Handshake timed out. Please try again."))
           (snd (handshakeTimeout w s)))
  /\ (handshakeComplete s = true -> handshakeTimeout w s = (s, [])).
Proof.
  unfold handshakeTimeout, initiateHandshake. split; [|split; [|split]].
  - intros op -> ->. simpl. right. apply in_or_app. right. now left.
  - now intros ->.
  - intros -> Hc Hm. unfold _updateStatus. rewrite Hc, Hm; simpl.
    split; [now left | right; now left].
  - now intros ->.
Qed.

(** C8, as the code has it. [initiateHandshake] hands the HANDSHAKE_REQUEST
    to [window.opener.postMessage] itself, not to [_sendMessage]: it is the
    only dispatch of the call and it has no [metadata]. The time of dispatch
    and the page's own origin travel in its [data], as [data.timestamp] and
    [data.receiver]. *)
Theorem C8_handshake_request_envelope (w : world) (s : session) (op : window) :
  opener w = Some op ->
  (exists rest,
     snd (initiateHandshake w s) =
       PostMessage op (handshakeRequest w) (senderOrigin (cfg s)) :: rest
     /\ filter outward rest = [])
  /\ get (handshakeRequest w) "type" = VStr "HANDSHAKE_REQUEST"
  /\ get (handshakeRequest w) "requestId" = VStr (_generateId w 32)
  /\ get (handshakeRequest w) "metadata" = VUndefined
  /\ get (get (handshakeRequest w) "data") "timestamp" = VStr (toISOString (now w))
  /\ get (get (handshakeRequest w) "data") "receiver" = VStr (location_origin w).
Proof.
  intros Hop. split; [|repeat split].
  unfold initiateHandshake. rewrite Hop.
  destruct (postMessage_throws w); simpl; eexists; (split; [reflexivity|]).
  - rewrite filter_app, updateStatus_quiet. now destruct (debug (cfg s)).
  - rewrite filter_app, updateStatus_quiet. reflexivity.
Qed.

(** ** The relay: C5 *)

Lemma post_outward (w : world) (s : session) (t : window) (message : value) :
  filter outward (snd (post w s t message)) =
  [PostMessage t (secureMessage w message) (senderOrigin (cfg s))].
Proof.
  unfold post. destruct (postMessage_throws w); simpl; f_equal.
  - rewrite filter_app, updateStatus_quiet. now destruct (debug (cfg s)).
  - now destruct (debug (cfg s)).
Qed.

Lemma sendMessage_outward (w : world) (s : session) (message : value) :
  is_str (get message "type") "HANDSHAKE_REQUEST" = false ->
  filter outward (snd (_sendMessage w s message)) =
  match sourceWindow s with
  | Some peer => [PostMessage peer (secureMessage w message) (senderOrigin (cfg s))]
  | None => []
  end.
Proof.
  intros Hty. unfold _sendMessage. rewrite Hty.
  destruct (sourceWindow s) as [peer|], (opener w) as [op|]; simpl;
    try apply post_outward; try reflexivity.
  rewrite andb_true_r. now destruct (debug (cfg s)).
Qed.

Lemma storeTokens_quiet (w : world) (st : TokenStorage) (tokens metadata : value) :
  filter outward (snd (storeTokens w st tokens metadata)) = [].
Proof.
  unfold storeTokens.
  destruct (negb (truthy tokens) || negb (truthy (get tokens "accessToken"))
            || negb (truthy (get tokens "refreshToken"))); [reflexivity|].
  simpl. now destruct (ts_debug st).
Qed.

Lemma tokenTransfer_valid (w : world) (s : session) (message : value) :
  truthy (get (tokens_of message) "accessToken") = true ->
  truthy (get (tokens_of message) "refreshToken") = true ->
  let d := payload_of message in
  let metadata := storeMetadata s (get d "userId") (get d "issuedAt") in
  tokenStorage (fst (tokenTransfer w s message)) =
    match tokenStorage s with
    | Some st => Some (snd (fst (storeTokens w st (tokens_of message) metadata)))
    | None => None
    end
  /\ filter outward (snd (tokenTransfer w s message)) =
     match tokenStorage s with
     | Some _ => [StoreTokens (tokens_of message) metadata]
     | None => []
     end
     ++ match sourceWindow s with
        | Some peer =>
            [PostMessage peer (secureMessage w (tokenReceived w message))
               (senderOrigin (cfg s))]
        | None => []
        end
     ++ match tokensReceivedCallback s with
        | IsFunction f =>
            [Callback f (tokens_of message)
               (VObj [("userId", get d "userId"); ("issuedAt", get d "issuedAt")])]
        | _ => []
        end.
Proof.
  intros Ha Hr. simpl.
  destruct (get_object _ _ Ha) as [fs Efs].
  unfold tokenTransfer. fold (payload_of message). fold (tokens_of message).
  rewrite Ha, Hr, Efs; simpl.
  destruct (tokenStorage s) as [st|] eqn:Est.
  - pose proof (storeTokens_quiet w st (VObj fs)
                  (storeMetadata s (get (payload_of message) "userId")
                     (get (payload_of message) "issuedAt"))) as Hq.
    destruct (storeTokens w st (VObj fs) _) as [[ok st'] logged]; simpl in *.
    split; [reflexivity|].
    rewrite !filter_app, Hq, updateStatus_quiet, updateTokenInfo_quiet.
    rewrite sendMessage_outward by reflexivity; simpl.
    do 2 f_equal. now destruct (tokensReceivedCallback s).
  - simpl. rewrite Est. split; [reflexivity|].
    rewrite !filter_app, updateStatus_quiet, updateTokenInfo_quiet.
    rewrite sendMessage_outward by reflexivity; simpl.
    f_equal. now destruct (tokensReceivedCallback s).
Qed.

(** C5, as the code has it. For a validated TOKEN_TRANSFER that arrives
    while connected and carries both tokens, what reaches other parties is,
    in this order and nothing more: when a token store is configured, one
    call of its store operation with the tokens and
    [{userId, issuedAt, source: senderOrigin}], which the store accepts;
    when a peer window was recorded, one TOKEN_RECEIVED envelope to it with
    the request's [requestId] and [success: true]; when a function is
    registered as callback, one call of it with the tokens and
    [{userId, issuedAt}]. Each of the three steps is skipped, without failing
    the others, when its receiver is absent. *)
Theorem C5_token_transfer_is_relayed (w : world) (s : session) (ev : MessageEvent) :
  fst (accepts w s ev) = true ->
  is_str (get (data ev) "type") "TOKEN_TRANSFER" = true ->
  handshakeComplete s = true ->
  truthy (get (tokens_of (data ev)) "accessToken") = true ->
  truthy (get (tokens_of (data ev)) "refreshToken") = true ->
  let d := payload_of (data ev) in
  let tokens := tokens_of (data ev) in
  let metadata :=
    VObj [("userId", get d "userId"); ("issuedAt", get d "issuedAt");
          ("source", VStr (senderOrigin (cfg s)))] in
  let ack := secureMessage w (tokenReceived w (data ev)) in
  filter outward (snd (handleMessage w s ev)) =
    match tokenStorage s with
    | Some _ => [StoreTokens tokens metadata]
    | None => []
    end
    ++ match sourceWindow s with
       | Some peer => [PostMessage peer ack (senderOrigin (cfg s))]
       | None => []
       end
    ++ match tokensReceivedCallback s with
       | IsFunction f =>
           [Callback f tokens
              (VObj [("userId", get d "userId"); ("issuedAt", get d "issuedAt")])]
       | _ => []
       end
  /\ (forall st, tokenStorage s = Some st ->
      fst (fst (storeTokens w st tokens metadata)) = true
      /\ tokenStorage (fst (handleMessage w s ev)) =
         Some (snd (fst (storeTokens w st tokens metadata))))
  /\ get ack "type" = VStr "TOKEN_RECEIVED"
  /\ get ack "requestId" = get (data ev) "requestId"
  /\ get (get ack "data") "success" = VBool true.
Proof.
  intros Hacc Htype Hdone Ha Hr; simpl.
  rewrite (handleMessage_transfer w s ev Hacc Htype Hdone); simpl.
  destruct (tokenTransfer_valid w s (data ev) Ha Hr) as [Hst Hout].
  simpl in Hst, Hout. unfold storeMetadata in Hst, Hout.
  split; [|split; [|repeat split]].
  - rewrite filter_app, Hout. now destruct (debug (cfg s)).
  - intros st Est. rewrite Hst, Est. split; [|reflexivity].
    destruct (get_object _ _ Ha) as [fs Efs].
    unfold storeTokens. now rewrite Ha, Hr, Efs.
Qed.

(** ** Invariants of a run: C2 and C6 *)

Lemma tokenTransfer_state (w : world) (s : session) (message : value) :
  fst (tokenTransfer w s message) = s
  \/ exists st, fst (tokenTransfer w s message) = with_tokenStorage s st.
Proof.
  unfold tokenTransfer.
  destruct (negb (truthy (get (js_or (get message "data") (VObj [])) "tokens")) || _ || _);
    [now left|].
  destruct (tokenStorage s) as [st|]; [|now left].
  destruct (storeTokens w st _ _) as [[ok st'] logged]; simpl.
  right. now exists st'.
Qed.

(** What one delivery can do to the session. *)
Lemma handleMessage_state (w : world) (s : session) (ev : MessageEvent) :
  fst (handleMessage w s ev) = s
  \/ fst (handleMessage w s ev) = connected s (source ev)
  \/ (handshakeComplete s = true
      /\ exists st, fst (handleMessage w s ev) = with_tokenStorage s st).
Proof.
  rewrite handleMessage_split.
  destruct (fst (accepts w s ev)); [|now left].
  unfold dispatch.
  destruct (is_str (get (data ev) "type") "HANDSHAKE_RESPONSE"); [right; now left|].
  destruct (is_str (get (data ev) "type") "TOKEN_TRANSFER"); [|now left].
  destruct (handshakeComplete s) eqn:Hdone; simpl; [|now left].
  destruct (tokenTransfer_state w s (data ev)) as [E|[st E]];
    destruct (tokenTransfer w s (data ev)) as [s' done]; simpl in *; subst.
  - now left.
  - right; right. split; [reflexivity | now exists st].
Qed.

Lemma step_state (w : world) (s : session) (c : call) :
  cfg (fst (step w s c)) = cfg s
  /\ (coherent s -> coherent (fst (step w s c))).
Proof.
  destruct c; simpl; try (split; [reflexivity | trivial]).
  - unfold initiateHandshake.
    destruct (opener w); [destruct (postMessage_throws w)|]; simpl; auto.
  - unfold handshakeTimeout. destruct (negb (handshakeComplete s)); simpl; auto.
  - intros _. right. split; reflexivity.
  - destruct (handleMessage_state w s ev) as [-> | [-> | (Hdone & st & ->)]];
      simpl; split; trivial.
    intros _. left. split; reflexivity.
Qed.

Lemma run_state (calls : list (world * call)) (s : session) :
  cfg (fst (run s calls)) = cfg s
  /\ (coherent s -> coherent (fst (run s calls))).
Proof.
  revert s. induction calls as [|[w c] rest IH]; intros s; simpl; [auto|].
  destruct (step_state w s c) as [Hcfg Hco].
  destruct (step w s c) as [s1 done]; simpl in *.
  destruct (IH s1) as [Hcfg' Hco'].
  destruct (run s1 rest) as [s2 later]; simpl in *.
  split; [congruence | auto].
Qed.

Lemma reachable_coherent (s : session) : reachable s -> coherent s.
Proof.
  intros (o & calls & ->). apply run_state. right. split; reflexivity.
Qed.

Lemma dispatch_outward (w : world) (s : session) (ev : MessageEvent) :
  filter outward (snd (dispatch w s ev)) <> []
    \/ tokenStorage (fst (dispatch w s ev)) <> tokenStorage s ->
  handshakeComplete s = true
  /\ is_str (get (data ev) "type") "TOKEN_TRANSFER" = true.
Proof.
  unfold dispatch.
  assert (Hrec : forall v, filter outward
                   (if debug (cfg s)
                    then [Console Log "[WebApp B] Received message: " v]
                    else []) = [])
    by (intros v; now destruct (debug (cfg s))).
  destruct (is_str (get (data ev) "type") "HANDSHAKE_RESPONSE"); simpl.
  { rewrite filter_app, Hrec, updateStatus_quiet. intros [E|E]; now elim E. }
  destruct (is_str (get (data ev) "type") "TOKEN_TRANSFER"); simpl.
  2:{ rewrite Hrec. intros [E|E]; now elim E. }
  destruct (handshakeComplete s); simpl; [auto|].
  rewrite filter_app, Hrec, updateStatus_quiet. intros [E|E]; now elim E.
Qed.


Lemma targets_only_app (o : string) (a b : list effect) :
  targets_only o a -> targets_only o b -> targets_only o (a ++ b).
Proof.
  intros Ha Hb t m o' Hin. apply in_app_or in Hin.
  destruct Hin; [eapply Ha | eapply Hb]; eassumption.
Qed.

Lemma targets_only_outward (o : string) (done : list effect) :
  targets_only o (filter outward done) -> targets_only o done.
Proof.
  intros Hf t m o' Hin. apply (Hf t m o'). apply filter_In. now split.
Qed.

Lemma targets_only_quiet (o : string) (done : list effect) :
  filter outward done = [] -> targets_only o done.
Proof.
  intros Hq. apply targets_only_outward. rewrite Hq. intros t m o' [].
Qed.

Lemma targets_only_post (w : world) (s : session) (t : window) (message : value) :
  targets_only (senderOrigin (cfg s)) (snd (post w s t message)).
Proof.
  apply targets_only_outward. rewrite post_outward.
  intros t' m o' [E|[]]. now inversion E.
Qed.

Lemma targets_only_sendMessage (w : world) (s : session) (message : value) :
  targets_only (senderOrigin (cfg s)) (snd (_sendMessage w s message)).
Proof.
  unfold _sendMessage.
  destruct (negb (isSome (sourceWindow s)) && negb (isSome (opener w))).
  { apply targets_only_quiet; simpl.
    now destruct (debug (cfg s) && _). }
  destruct (opener w) as [op|], (sourceWindow s) as [peer|];
    try destruct (is_str (get message "type") "HANDSHAKE_REQUEST");
    try apply targets_only_post; intros t m o' [].
Qed.

Lemma targets_only_tokenTransfer (w : world) (s : session) (message : value) :
  targets_only (senderOrigin (cfg s)) (snd (tokenTransfer w s message)).
Proof.
  unfold tokenTransfer.
  destruct (negb (truthy (get (js_or (get message "data") (VObj [])) "tokens")) || _ || _).
  { apply targets_only_quiet, updateStatus_quiet. }
  set (tokens := get (js_or (get message "data") (VObj [])) "tokens").
  set (md := storeMetadata s _ _).
  assert (Hs1 : forall s1 stored,
             cfg s1 = cfg s -> filter is_post stored = [] ->
             targets_only (senderOrigin (cfg s))
               (stored
                ++ _updateStatus w s1 "Tokens received successfully!" "success"
                ++ _updateTokenInfo w s1
                ++ snd (_sendMessage w s1 (tokenReceived w message))
                ++ match tokensReceivedCallback s1 with
                   | IsFunction f =>
                       [Callback f tokens
                          (VObj [("userId", get (js_or (get message "data") (VObj [])) "userId");
                                 ("issuedAt", get (js_or (get message "data") (VObj [])) "issuedAt")])]
                   | _ => []
                   end)).
  { intros s1 stored Hcfg Hst.
    apply targets_only_app;
      [|apply targets_only_app;
          [|apply targets_only_app; [|apply targets_only_app]]].
    - intros t m o' Hin.
      pose proof (filter_nil_In is_post _ _ Hst Hin). discriminate.
    - apply targets_only_quiet, updateStatus_quiet.
    - apply targets_only_quiet, updateTokenInfo_quiet.
    - rewrite <- Hcfg. apply targets_only_sendMessage.
    - intros t m o' Hin.
      destruct (tokensReceivedCallback s1); simpl in Hin;
        try destruct Hin as [E|[]]; try destruct Hin; discriminate. }
  destruct (tokenStorage s) as [st|].
  - pose proof (storeTokens_quiet w st tokens md) as Hq.
    destruct (storeTokens w st tokens md) as [[ok st'] logged]; cbn [fst snd] in *.
    apply Hs1; [reflexivity|]. simpl.
    destruct (filter is_post logged) as [|e rest] eqn:E; [reflexivity|].
    assert (Hin : In e (filter is_post logged)) by (rewrite E; now left).
    apply filter_In in Hin. destruct Hin as [Hin He].
    pose proof (filter_nil_In outward _ e Hq Hin).
    destruct e; simpl in *; discriminate.
  - cbn [snd]. now apply Hs1.
Qed.

Lemma targets_only_step (w : world) (s : session) (c : call) :
  targets_only (senderOrigin (cfg s)) (snd (step w s c)).
Proof.
  destruct c; simpl; try (intros t m o' []; fail).
  - unfold init. apply targets_only_quiet; simpl. now destruct (debug (cfg s)).
  - unfold initiateHandshake.
    destruct (opener w) as [op|]; [destruct (postMessage_throws w)|]; simpl.
    + apply targets_only_outward; simpl.
      rewrite filter_app, updateStatus_quiet.
      destruct (debug (cfg s)); intros t m o' [E|[]]; now inversion E.
    + apply targets_only_outward; simpl.
      rewrite filter_app, updateStatus_quiet; simpl.
      intros t m o' [E|[]]; now inversion E.
    + apply targets_only_quiet, updateStatus_quiet.
  - unfold handshakeTimeout. destruct (negb (handshakeComplete s)); simpl.
    + apply targets_only_quiet, updateStatus_quiet.
    + intros t m o' [].
  - apply targets_only_quiet; simpl. now destruct (debug (cfg s)).
  - rewrite handleMessage_split.
    destruct (fst (accepts w s ev)).
    2:{ apply targets_only_quiet, accepts_console. }
    unfold dispatch.
    assert (Hrec : forall v, targets_only (senderOrigin (cfg s))
                     (if debug (cfg s)
                      then [Console Log "[WebApp B] Received message: " v]
                      else []))
      by (intros v; apply targets_only_quiet; now destruct (debug (cfg s))).
    destruct (is_str (get (data ev) "type") "HANDSHAKE_RESPONSE"); simpl.
    { apply targets_only_app; [apply Hrec|].
      apply targets_only_quiet, updateStatus_quiet. }
    destruct (is_str (get (data ev) "type") "TOKEN_TRANSFER"); simpl;
      [|apply Hrec].
    destruct (handshakeComplete s); simpl.
    + pose proof (targets_only_tokenTransfer w s (data ev)) as Ht.
      destruct (tokenTransfer w s (data ev)) as [s' done]; simpl in *.
      apply targets_only_app; [apply Hrec | exact Ht].
    + apply targets_only_app; [apply Hrec|].
      apply targets_only_quiet, updateStatus_quiet.
Qed.

(** C6. Along any run of a session, from its construction on, every dispatch
    (the handshake request, the acknowledgement, any message) names as its
    target origin the sender origin the session was constructed with; so no
    dispatch names the wildcard unless that is what was configured. *)
Theorem C6_every_dispatch_targets_sender_origin
  (o : options) (calls : list (world * call))
  (t : window) (m : value) (targetOrigin : string) :
  In (PostMessage t m targetOrigin) (snd (run (constructor o) calls)) ->
  targetOrigin = senderOrigin (cfg (constructor o))
  /\ (senderOrigin (cfg (constructor o)) <> "*" -> targetOrigin <> "*").
Proof.
  assert (Hrun : forall calls s, targets_only (senderOrigin (cfg s)) (snd (run s calls))).
  { clear. induction calls as [|[w c] rest IH]; intros s; simpl.
    - intros t m o' [].
    - pose proof (targets_only_step w s c) as Hstep.
      destruct (step_state w s c) as [Hcfg _].
      destruct (step w s c) as [s1 done]; simpl in *.
      specialize (IH s1). rewrite Hcfg in IH.
      destruct (run s1 rest) as [s2 later]; simpl in *.
      now apply targets_only_app. }
  intros Hin. pose proof (Hrun calls (constructor o) t m targetOrigin Hin) as E.
  split; [exact E | congruence].
Qed.

End Properties.

(** * The properties on the concrete page *)

Section Instances.

#[local] Existing Instance ms_platform.

(** ** The validator at its bounds (the clock of [page] reads 1749091967000) *)

Example expires_now_accepted :
  accepts page app_connected (stamped (VNum 1749091967000) (VNum 1749091967000))
  = (true, []).
Proof. vm_compute. reflexivity. Qed.

Example expired_rejected :
  accepts page app_connected (stamped (VNum 1749091967000) (VNum 1749091966999))
  = (false, [Console Warn "[WebApp B] Received expired message" VUndefined]).
Proof. vm_compute. reflexivity. Qed.

Example ahead_60s_accepted :
  fst (accepts page app_connected
         (stamped (VNum 1749092027000) (VNum 1749092087000))) = true.
Proof. vm_compute. reflexivity. Qed.

Example ahead_60s_1ms_rejected :
  accepts page app_connected (stamped (VNum 1749092027001) (VNum 1749092087000))
  = (false,
     [Console Warn "[WebApp B] Received message with future timestamp" VUndefined]).
Proof. vm_compute. reflexivity. Qed.

Example old_120s_accepted :
  fst (accepts page app_connected
         (stamped (VNum 1749091847000) (VNum 1749092027000))) = true.
Proof. vm_compute. reflexivity. Qed.

Example old_120s_1ms_rejected :
  accepts page app_connected (stamped (VNum 1749091846999) (VNum 1749092027000))
  = (false, [Console Warn "[WebApp B] Received message is too old" VUndefined]).
Proof. vm_compute. reflexivity. Qed.

Example empty_timestamp_rejected :
  accepts page app_connected (stamped (VStr "") (VNum 1749092027000)) = (false, []).
Proof. vm_compute. reflexivity. Qed.

(** A field that is there but is no date bounds nothing. *)
Example undated_expiry_accepted :
  fst (accepts page app_connected
         (stamped (VNum 1749091967000) (VStr "tomorrow"))) = true.
Proof. vm_compute. reflexivity. Qed.

Example response_needs_no_metadata :
  accepts page app_connected (handshake_response "r-1" 1%nat) = (true, []).
Proof. vm_compute. reflexivity. Qed.

(** ** C1 to C10 on the page *)

Lemma C1_foreign_transfer_dropped :
  origin (foreign_transfer both_tokens) <> senderOrigin (cfg app_connected)
  /\ handleMessage page app_connected (foreign_transfer both_tokens) =
       (app_connected,
        [Console Warn "[WebApp B] Rejected message from unauthorized origin: "
           (VStr "http://localhost:4000")])
  /\ filter outward
       (snd (handleMessage page app_connected (foreign_transfer both_tokens))) = [].
Proof.
  assert (Hne : origin (foreign_transfer both_tokens)
                <> senderOrigin (cfg app_connected))
    by (vm_compute; discriminate).
  split; [exact Hne|].
  exact (C1_foreign_origin_is_dropped page app_connected
           (foreign_transfer both_tokens) Hne).
Defined.

Lemma app_connected_reachable : reachable app_connected.
Proof.
  exists app_options.
  exists [(page, Init); (page, OnTokensReceived (IsFunction 7%nat));
          (page, InitiateHandshake);
          (page, Message (handshake_response "r-1" 1%nat))].
  reflexivity.
Defined.


(** A second HANDSHAKE_RESPONSE, from window 2, reaches a session that is
    connected to window 1: it is acted on. And a first one reaches a session
    that never initiated a handshake: it connects. *)
Lemma C3_duplicate_response_is_acted_on :
  handshakeComplete app_connected = true
  /\ connectionStatus app_connected = "connected"
  /\ sourceWindow app_connected = Some 1%nat
  /\ handleMessage page app_connected (handshake_response "r-1" 2%nat)
     <> (app_connected, [])
  /\ sourceWindow
       (fst (handleMessage page app_connected (handshake_response "r-1" 2%nat)))
     = Some 2%nat
  /\ snd (handleMessage page app_connected (handshake_response "r-1" 2%nat)) =
       [Console Log "[WebApp B] Received message: " (VStr "HANDSHAKE_RESPONSE");
        SetClassName "statusContainer" "status pending";
        SetTextContent "statusMessage"
          (VStr "Connected to Web App A and waiting for tokens...");
        Console Log "[WebApp B] Connected to Web App A and waiting for tokens..."
          VUndefined]
  /\ connectionStatus
       (fst (handleMessage page (constructor app_options)
               (handshake_response "r-1" 1%nat))) = "connected".
Proof.
  repeat split; try reflexivity.
  vm_compute. discriminate.
Qed.

Lemma C3_response_from_window_2 :
  origin (handshake_response "r-1" 2%nat) = senderOrigin (cfg app_connected)
  /\ sourceWindow
       (fst (handleMessage page app_connected (handshake_response "r-1" 2%nat)))
     = Some 2%nat.
Proof.
  split; [reflexivity|].
  apply (C3_response_connects_from_any_state page app_connected
           (handshake_response "r-1" 2%nat)); reflexivity.
Defined.


(** A session built without a token store, connected, receives a valid
    transfer with both tokens: no store operation is called. *)
Lemma C5_no_store_no_store_call :
  fst (accepts page bare_connected (token_transfer both_tokens)) = true
  /\ is_str (get (data (token_transfer both_tokens)) "type") "TOKEN_TRANSFER" = true
  /\ handshakeComplete bare_connected = true
  /\ connectionStatus bare_connected = "connected"
  /\ get (tokens_of (data (token_transfer both_tokens))) "accessToken" = VStr "a"
  /\ get (tokens_of (data (token_transfer both_tokens))) "refreshToken" = VStr "b"
  /\ tokenStorage bare_connected = None
  /\ filter is_store
       (snd (handleMessage page bare_connected (token_transfer both_tokens))) = []
  /\ forall tokens metadata,
       ~ In (StoreTokens tokens metadata)
           (snd (handleMessage page bare_connected (token_transfer both_tokens))).
Proof.
  repeat split; try reflexivity.
  intros tokens metadata Hin. vm_compute in Hin.
  repeat (destruct Hin as [Hin|Hin]; [discriminate Hin|]). exact Hin.
Qed.

Lemma C5_application_relays_transfer :
  fst (accepts page app_connected (token_transfer both_tokens)) = true
  /\ filter outward
       (snd (handleMessage page app_connected (token_transfer both_tokens))) =
     [StoreTokens both_tokens
        (VObj [("userId", VStr "u1"); ("issuedAt", VNum 1749091960000);
               ("source", VStr "http://localhost:3002")]);
      PostMessage 1%nat
        (VObj [("type", VStr "TOKEN_RECEIVED"); ("requestId", VStr "r-42");
               ("data", VObj [("success", VBool true);
                              ("timestamp", VStr "1749091967000")]);
               ("metadata", VObj [("timestamp", VStr "1749091967000");
                                  ("sender", VStr "http://localhost:3003")])])
        "http://localhost:3002";
      Callback 7%nat both_tokens
        (VObj [("userId", VStr "u1"); ("issuedAt", VNum 1749091960000)])].
Proof.
  split; [reflexivity|].
  exact (proj1 (C5_token_transfer_is_relayed page app_connected
                  (token_transfer both_tokens)
                  eq_refl eq_refl eq_refl eq_refl eq_refl)).
Defined.

Lemma C6_handshake_request_target :
  In (PostMessage 1%nat (handshakeRequest page) "http://localhost:3002")
    (snd (run (constructor app_options) [(page, Init); (page, InitiateHandshake)]))
  /\ "http://localhost:3002" = senderOrigin (cfg (constructor app_options))
  /\ "http://localhost:3002" <> "*".
Proof.
  assert (Hin : In (PostMessage 1%nat (handshakeRequest page) "http://localhost:3002")
                  (snd (run (constructor app_options)
                          [(page, Init); (page, InitiateHandshake)])))
    by (simpl; right; right; right; left; reflexivity).
  split; [exact Hin|].
  destruct (C6_every_dispatch_targets_sender_origin app_options
              [(page, Init); (page, InitiateHandshake)] _ _ _ Hin) as [E Hwild].
  split; [exact E|]. apply Hwild. simpl. discriminate.
Defined.

(** The timer fires on a session whose handshake request went unanswered:
    the session is what it was when constructed, its status still
    'disconnected'; and a response that comes later still connects it. *)
Lemma C7_timeout_leaves_session_disconnected :
  handshakeComplete
    (fst (run (constructor app_options) [(page, Init); (page, InitiateHandshake)]))
  = false
  /\ fst (run (constructor app_options)
            [(page, Init); (page, InitiateHandshake); (page, TimeoutFires)])
     = constructor app_options
  /\ connectionStatus
       (fst (run (constructor app_options)
               [(page, Init); (page, InitiateHandshake); (page, TimeoutFires)]))
     = "disconnected"
  /\ connectionStatus
       (fst (run (constructor app_options)
               [(page, Init); (page, InitiateHandshake); (page, TimeoutFires)]))
     <> "error"
  /\ connectionStatus
       (fst (run (constructor app_options)
               [(page, Init); (page, InitiateHandshake); (page, TimeoutFires);
                (page, Message (handshake_response "r-1" 1%nat))]))
     = "connected".
Proof.
  repeat split; try reflexivity.
  vm_compute. discriminate.
Qed.

Lemma C7_timeout_on_the_page :
  handshakeComplete (constructor app_options) = false
  /\ handshakeTimeout page (constructor app_options) =
       (constructor app_options,
        [SetClassName "statusContainer" "status error";
         SetTextContent "statusMessage"
           (VStr "Handshake timed out. Please try again.");
         Console Log "[WebApp B] Handshake timed out. Please try again." VUndefined])
  /\ handshakeTimeout page app_connected = (app_connected, []).
Proof.
  destruct (C7_timeout_reports_and_keeps_session page (constructor app_options))
    as (_ & Hfire & _).
  destruct (C7_timeout_reports_and_keeps_session page app_connected)
    as (_ & _ & _ & Hidle).
  split; [reflexivity|]. split; [exact (Hfire eq_refl) | exact (Hidle eq_refl)].
Defined.

(** The request that [initiateHandshake] dispatches on the page: it has no
    [metadata], hence no [metadata.timestamp] and no [metadata.sender]. *)
Lemma C8_request_has_no_metadata :
  filter is_post (snd (initiateHandshake page (constructor app_options))) =
    [PostMessage 1%nat
       (VObj [("type", VStr "HANDSHAKE_REQUEST");
              ("requestId", VStr "ABCDEFGHIJKLMNOPQRSTUVWXYZabcdef");
              ("data", VObj [("timestamp", VStr "1749091967000");
                             ("receiver", VStr "http://localhost:3003")])])
       "http://localhost:3002"]
  /\ get (VObj [("type", VStr "HANDSHAKE_REQUEST");
                ("requestId", VStr "ABCDEFGHIJKLMNOPQRSTUVWXYZabcdef");
                ("data", VObj [("timestamp", VStr "1749091967000");
                               ("receiver", VStr "http://localhost:3003")])])
       "metadata" = VUndefined.
Proof.
  split; reflexivity.
Qed.

Lemma C8_request_on_the_page :
  opener page = Some 1%nat
  /\ get (handshakeRequest page) "metadata" = VUndefined
  /\ get (get (handshakeRequest page) "data") "receiver"
     = VStr "http://localhost:3003".
Proof.
  split; [reflexivity|].
  destruct (C8_handshake_request_envelope page (constructor app_options) 1%nat
              eq_refl) as (_ & _ & _ & Hmeta & _ & Hrecv).
  split; [exact Hmeta | exact Hrecv].
Defined.


Lemma C10_other_or_absent_requestId :
  is_str (get (data (handshake_response "r-1" 1%nat)) "type") "HANDSHAKE_RESPONSE"
  = true
  /\ handleMessage page (constructor app_options)
       (with_requestId (Some (VStr "not-the-id-that-was-sent"))
          (handshake_response "r-1" 1%nat))
     = handleMessage page (constructor app_options)
         (with_requestId None (handshake_response "r-1" 1%nat)).
Proof.
  split; [reflexivity|].
  apply (C10_response_requestId_is_not_checked page (constructor app_options)
           (handshake_response "r-1" 1%nat)).
  reflexivity.
Defined.

End Instances.

(** * The rest of the code *)

Section Coverage.

Context `{P : Platform}.

(** ** token-storage.js *)

Lemma storeTokens_accepted (w : world) (st : TokenStorage) (tokens metadata : value) :
  truthy (get tokens "accessToken") = true ->
  truthy (get tokens "refreshToken") = true ->
  storeTokens w st tokens metadata =
    (true,
     {| ts_debug := ts_debug st;
        accessToken := get tokens "accessToken";
        refreshToken := get tokens "refreshToken";
        tokenMetadata :=
          VObj (assign "receivedAt" (VStr (toISOString (now w))) (spread metadata)) |},
     if ts_debug st
     then [Console Log "[TokenStorage] Tokens stored successfully" VUndefined]
     else []).
Proof.
  intros Ha Hr. destruct (get_object _ _ Ha) as [fs ->].
  unfold storeTokens. now rewrite Ha, Hr.
Qed.

(** X1. What [storeTokens] accepted can be read back: the two getters return
    the tokens given, [hasTokens] holds, and [getTokenMetadata] returns the
    fields of the metadata given with [receivedAt] set to the time of the
    call, whatever [receivedAt] the caller supplied and whatever the store
    held before. *)
Theorem storeTokens_then_read
  (w : world) (st : TokenStorage) (tokens : value) (fs : list (string * value)) :
  truthy (get tokens "accessToken") = true ->
  truthy (get tokens "refreshToken") = true ->
  fst (fst (storeTokens w st tokens (VObj fs))) = true
  /\ getAccessToken (snd (fst (storeTokens w st tokens (VObj fs))))
     = get tokens "accessToken"
  /\ getRefreshToken (snd (fst (storeTokens w st tokens (VObj fs))))
     = get tokens "refreshToken"
  /\ hasTokens (snd (fst (storeTokens w st tokens (VObj fs)))) = true
  /\ get (getTokenMetadata (snd (fst (storeTokens w st tokens (VObj fs)))))
       "receivedAt" = VStr (toISOString (now w))
  /\ (forall k, k <> "receivedAt" ->
      get (getTokenMetadata (snd (fst (storeTokens w st tokens (VObj fs))))) k
      = get (VObj fs) k).
Proof.
  intros Ha Hr. rewrite (storeTokens_accepted w st tokens (VObj fs) Ha Hr); simpl.
  unfold hasTokens; simpl. rewrite Ha, Hr.
  repeat split; try reflexivity.
  - apply lookup_assign_same.
  - intros k Hk. now apply lookup_assign_other.
Qed.

(** X2. [storeTokens] returns [true] exactly when [tokens.accessToken] and
    [tokens.refreshToken] are both there; when it returns [false] the store
    is left as it was, what it held stays readable, and nothing is logged
    even in debug mode. *)
Theorem storeTokens_accepts_iff_both_tokens
  (w : world) (st : TokenStorage) (tokens metadata : value) :
  (fst (fst (storeTokens w st tokens metadata)) = true <->
   truthy (get tokens "accessToken") = true
   /\ truthy (get tokens "refreshToken") = true)
  /\ (fst (fst (storeTokens w st tokens metadata)) = false ->
      storeTokens w st tokens metadata = (false, st, [])).
Proof.
  unfold storeTokens.
  destruct (truthy tokens) eqn:Et; simpl.
  - destruct (truthy (get tokens "accessToken")),
      (truthy (get tokens "refreshToken")); simpl;
      (split; [split; [intros E; try discriminate E; auto | intros [E1 E2];
                        try discriminate E1; try discriminate E2; reflexivity]
              | intros E; try discriminate E; reflexivity]).
  - rewrite (get_falsy tokens "accessToken" Et); simpl.
    split; [split; [discriminate | intros [E _]; discriminate] | reflexivity].
Qed.

(** X3. [clearTokens] forgets whatever was stored: after it the getters
    return [null], [hasTokens] is false and [getTokenMetadata] returns an
    empty object (not [null]); the debug flag is kept, and clearing again
    changes nothing. *)
Theorem clearTokens_forgets_a_store
  (w : world) (st : TokenStorage) (tokens metadata : value) :
  getAccessToken (fst (clearTokens (snd (fst (storeTokens w st tokens metadata)))))
  = VNull
  /\ getRefreshToken (fst (clearTokens (snd (fst (storeTokens w st tokens metadata)))))
     = VNull
  /\ hasTokens (fst (clearTokens (snd (fst (storeTokens w st tokens metadata)))))
     = false
  /\ getTokenMetadata (fst (clearTokens (snd (fst (storeTokens w st tokens metadata)))))
     = VObj []
  /\ ts_debug (fst (clearTokens (snd (fst (storeTokens w st tokens metadata)))))
     = ts_debug st
  /\ fst (clearTokens (fst (clearTokens (snd (fst (storeTokens w st tokens metadata))))))
     = fst (clearTokens (snd (fst (storeTokens w st tokens metadata)))).
Proof.
  assert (Hd : ts_debug (snd (fst (storeTokens w st tokens metadata))) = ts_debug st).
  { unfold storeTokens.
    destruct (negb (truthy tokens) || _ || _); reflexivity. }
  unfold clearTokens, getAccessToken, getRefreshToken, hasTokens, getTokenMetadata;
    simpl.
  repeat split; try reflexivity; exact Hd.
Qed.

Lemma storeTokens_cases
  (w : world) (st : TokenStorage) (tokens metadata : value) :
  (truthy (get tokens "accessToken") = true
   /\ truthy (get tokens "refreshToken") = true)
  \/ storeTokens w st tokens metadata = (false, st, []).
Proof.
  unfold storeTokens.
  destruct (truthy tokens) eqn:Et; simpl.
  - destruct (truthy (get tokens "accessToken")),
      (truthy (get tokens "refreshToken")); simpl; auto.
  - now right.
Qed.

Lemma store_step_all_or_nothing (w : world) (st : TokenStorage) (c : store_call) :
  all_or_nothing st ->
  all_or_nothing (store_step w st c) /\ ts_debug (store_step w st c) = ts_debug st.
Proof.
  intros Hinv. destruct c as [tokens metadata|]; simpl.
  - destruct (storeTokens_cases w st tokens metadata)
      as [(Ha & Hr) | E].
    + rewrite (storeTokens_accepted w st tokens metadata Ha Hr); simpl.
      split; [|reflexivity]. right. simpl. repeat split; trivial.
      eexists _, (now w). split; [reflexivity | apply lookup_assign_same].
    + rewrite E; simpl. auto.
  - split; [|reflexivity]. left. repeat split.
Qed.

(** X4. However a store is driven from its creation, by calls of
    [storeTokens] (accepted or not) and [clearTokens], it holds everything or
    nothing: when [hasTokens] is false both getters return [null] and the
    metadata is empty; when it is true the metadata carries the time of
    receipt. Its debug flag never changes. *)
Theorem store_holds_all_or_nothing (dbg : bool) (calls : list (world * store_call)) :
  (hasTokens (store_run (new_TokenStorage dbg) calls) = false ->
   getAccessToken (store_run (new_TokenStorage dbg) calls) = VNull
   /\ getRefreshToken (store_run (new_TokenStorage dbg) calls) = VNull
   /\ getTokenMetadata (store_run (new_TokenStorage dbg) calls) = VObj [])
  /\ (hasTokens (store_run (new_TokenStorage dbg) calls) = true ->
      exists t, get (getTokenMetadata (store_run (new_TokenStorage dbg) calls))
                  "receivedAt" = VStr (toISOString t))
  /\ ts_debug (store_run (new_TokenStorage dbg) calls) = dbg.
Proof.
  assert (Hrun : forall calls st,
             all_or_nothing st ->
             all_or_nothing (store_run st calls)
             /\ ts_debug (store_run st calls) = ts_debug st).
  { clear. induction calls as [|[w c] rest IH]; intros st Hinv; simpl; [auto|].
    destruct (store_step_all_or_nothing w st c Hinv) as [Hinv' Hd].
    destruct (IH _ Hinv') as [Hinv'' Hd']. split; [assumption | congruence]. }
  destruct (Hrun calls (new_TokenStorage dbg)) as [Hinv Hd].
  { left. repeat split. }
  set (st := store_run (new_TokenStorage dbg) calls) in *.
  unfold hasTokens, getAccessToken, getRefreshToken, getTokenMetadata.
  split; [|split; [|exact Hd]].
  - destruct Hinv as [(Ha & Hr & Hm) | (Ha & Hr & _)].
    + rewrite Ha, Hr, Hm. auto.
    + rewrite Ha, Hr. discriminate.
  - destruct Hinv as [(Ha & Hr & Hm) | (_ & _ & fs & t & Hm & Hrec)].
    + rewrite Ha. discriminate.
    + intros _. exists t. rewrite Hm. exact Hrec.
Qed.

(** ** [_generateId] *)

Lemma length_append (a b : string) :
  String.length (a ++ b)%string = (String.length a + String.length b)%nat.
Proof. induction a as [|c a IH]; simpl; [reflexivity | now rewrite IH]. Qed.

Lemma string_forall_append (p : ascii -> bool) (a b : string) :
  string_forall p (a ++ b)%string = string_forall p a && string_forall p b.
Proof.
  induction a as [|c a IH]; simpl; [reflexivity|].
  now rewrite IH, andb_assoc.
Qed.

Lemma get_append_right (a b : string) (n : nat) :
  String.get (String.length a + n) (a ++ b)%string = String.get n b.
Proof. induction a as [|c a IH]; simpl; [reflexivity | exact IH]. Qed.

Lemma get_append_left (a b : string) (n : nat) :
  (n < String.length a)%nat -> String.get n (a ++ b)%string = String.get n a.
Proof.
  revert n. induction a as [|c a IH]; simpl; intros n Hn; [lia|].
  destruct n as [|n]; [reflexivity|]. apply IH. lia.
Qed.

Lemma charAt_characters (k : Z) :
  0 <= k < 62 ->
  exists c, String.get (Z.to_nat k) characters = Some c
            /\ charAt characters k = String c EmptyString
            /\ alphanumeric c = true.
Proof.
  intros Hk.
  assert (Hall : forallb (fun n => match String.get n characters with
                                   | Some c => alphanumeric c
                                   | None => false
                                   end) (seq 0 62) = true)
    by (vm_compute; reflexivity).
  rewrite forallb_forall in Hall.
  specialize (Hall (Z.to_nat k)).
  assert (Hin : In (Z.to_nat k) (seq 0 62)) by (apply in_seq; lia).
  specialize (Hall Hin). unfold charAt.
  destruct (String.get (Z.to_nat k) characters) as [c|]; [|discriminate].
  exists c. auto.
Qed.

(** The index [_generateId] computes from the octet at position [i]. *)
Lemma index_in_alphabet (w : world) (i : nat) :
  0 <= (random_byte w i mod 256) mod Z.of_nat (String.length characters) < 62.
Proof.
  change (Z.of_nat (String.length characters)) with 62.
  apply Z.mod_pos_bound. lia.
Qed.

Lemma generateId_from (w : world) (l : list nat) (acc : string) :
  let id :=
    fold_left
      (fun result i =>
         (result ++ charAt characters
                      ((random_byte w i mod 256)
                       mod Z.of_nat (String.length characters)))%string)
      l acc in
  String.length id = (String.length acc + length l)%nat
  /\ string_forall alphanumeric id = string_forall alphanumeric acc
  /\ (forall j, (j < String.length acc)%nat -> String.get j id = String.get j acc)
  /\ (forall j, (j < length l)%nat ->
      String.get (String.length acc + j) id =
      String.get
        (Z.to_nat ((random_byte w (nth j l 0%nat) mod 256)
                   mod Z.of_nat (String.length characters)))
        characters).
Proof.
  revert acc. induction l as [|i rest IH]; intros acc; cbn [fold_left length nth].
  - repeat split; lia.
  - destruct (charAt_characters _ (index_in_alphabet w i)) as (c & Hget & Hc & Hal).
    rewrite Hc.
    destruct (IH (acc ++ String c EmptyString)%string) as (Hlen & Hall & Hleft & Hright).
    rewrite length_append in *. cbn [String.length] in *.
    split; [lia|]. split.
    { rewrite Hall, string_forall_append; simpl. rewrite Hal.
      now rewrite !andb_true_r. }
    split.
    { intros j Hj. rewrite Hleft by lia. now apply get_append_left. }
    intros j Hj. destruct j as [|j].
    + rewrite Hleft by lia.
      rewrite get_append_right. cbn [String.get nth]. symmetry. exact Hget.
    + replace (String.length acc + S j)%nat with (String.length acc + 1 + j)%nat by lia.
      apply Hright. lia.
Qed.

(** X5. [_generateId(n)] returns exactly [n] characters, each an ASCII
    letter or digit; the character at position [i] is the one that the octet
    at position [i] alone selects from the 62-character alphabet (its value
    modulo 62). *)
Theorem generateId_length_and_alphabet (w : world) (n : nat) :
  String.length (_generateId w n) = n
  /\ string_forall alphanumeric (_generateId w n) = true
  /\ (forall i, (i < n)%nat ->
      String.get i (_generateId w n) =
      String.get (Z.to_nat ((random_byte w i mod 256) mod 62)) characters).
Proof.
  unfold _generateId.
  destruct (generateId_from w (seq 0 n) "") as (Hlen & Hall & _ & Hith).
  simpl in *. rewrite length_seq in *.
  split; [exact Hlen|]. split; [exact Hall|].
  intros i Hi. rewrite (Hith i Hi), seq_nth by exact Hi. reflexivity.
Qed.

(** ** [initiateHandshake] *)

(** X6. [initiateHandshake] returns [true] exactly when there is an opener
    and its [postMessage] did not throw, and it arms the 30 000 ms timer
    exactly then. With no opener nothing is dispatched. In every case the
    session is returned as it was. *)
Theorem initiateHandshake_outcome (w : world) (s : session) :
  (fst (fst (initiateHandshake w s)) = true <->
   isSome (opener w) = true /\ postMessage_throws w = false)
  /\ (In (SetTimeout HandshakeTimeout 30000) (snd (initiateHandshake w s)) <->
      fst (fst (initiateHandshake w s)) = true)
  /\ (opener w = None -> filter outward (snd (initiateHandshake w s)) = [])
  /\ snd (fst (initiateHandshake w s)) = s.
Proof.
  assert (Hstatus : forall m k, ~ In (SetTimeout HandshakeTimeout 30000)
                                    (_updateStatus w s m k)).
  { intros m k. unfold _updateStatus.
    destruct (element w "statusContainer" && element w "statusMessage"),
      (debug (cfg s)); simpl; intuition discriminate. }
  unfold initiateHandshake.
  destruct (opener w) as [op|]; [destruct (postMessage_throws w)|]; simpl.
  - split; [split; [discriminate | intros [_ E]; discriminate]|].
    split; [|split; [discriminate | reflexivity]].
    split; [|discriminate].
    intros [E|Hin]; [discriminate|].
    apply in_app_or in Hin. destruct Hin as [Hin|Hin].
    + destruct (debug (cfg s)); simpl in Hin; intuition discriminate.
    + now apply Hstatus in Hin.
  - split; [split; auto|].
    split; [|split; [discriminate | reflexivity]].
    split; [reflexivity|]. intros _. right. apply in_or_app. right. now left.
  - split; [split; [discriminate | intros [E _]; discriminate]|].
    split; [|split; [intros _; apply updateStatus_quiet | reflexivity]].
    split; [|discriminate]. intros Hin. now apply Hstatus in Hin.
Qed.

(** ** [_sendMessage] *)

(** X7. [_sendMessage] dispatches at most once, to the window [route]
    picks: the opener for a HANDSHAKE_REQUEST when there is one, otherwise
    the recorded source window (also for a HANDSHAKE_REQUEST on a page
    without opener). A message of any other type never goes to the opener.
    With no such window nothing is dispatched. The call returns [true]
    exactly when it dispatched and the dispatch did not throw. *)
Theorem sendMessage_routing (w : world) (s : session) (message : value) :
  filter outward (snd (_sendMessage w s message)) =
    match route w s message with
    | Some target =>
        [PostMessage target (secureMessage w message) (senderOrigin (cfg s))]
    | None => []
    end
  /\ fst (_sendMessage w s message)
     = isSome (route w s message) && negb (postMessage_throws w)
  /\ (is_str (get message "type") "HANDSHAKE_REQUEST" = false ->
      route w s message = sourceWindow s).
Proof.
  assert (Hpost : forall t, fst (post w s t message) = negb (postMessage_throws w)).
  { intros t. unfold post. now destruct (postMessage_throws w). }
  unfold _sendMessage, route.
  destruct (sourceWindow s) as [peer|], (opener w) as [op|],
    (is_str (get message "type") "HANDSHAKE_REQUEST"); simpl;
    rewrite ?post_outward, ?Hpost; repeat split; try reflexivity;
    try (intros E; discriminate E).
  all: now destruct (debug (cfg s)).
Qed.

(** X8. The envelope [_sendMessage] builds from an object keeps every field
    of it but [metadata], which is replaced, whatever it was, by the time of
    dispatch and the page's own origin. *)
Theorem secureMessage_fields (w : world) (fs : list (string * value)) :
  get (secureMessage w (VObj fs)) "metadata"
  = VObj [("timestamp", VStr (toISOString (now w)));
          ("sender", VStr (location_origin w))]
  /\ (forall k, k <> "metadata" ->
      get (secureMessage w (VObj fs)) k = get (VObj fs) k).
Proof.
  unfold secureMessage; simpl. split.
  - apply lookup_assign_same.
  - intros k Hk. now apply lookup_assign_other.
Qed.

(** X9. An envelope built by [_sendMessage] has no [metadata.expiresAt], so
    this side's own validator rejects it at any time and in any session; sent
    back from the configured origin, it is dropped by [handleMessage] unless
    its type is HANDSHAKE_RESPONSE. *)
Theorem own_envelopes_do_not_validate
  (w w' : world) (s : session) (message : value) (ev : MessageEvent) :
  data ev = secureMessage w message ->
  _isMessageValid w' s (data ev) = (false, [])
  /\ (is_str (get (data ev) "type") "HANDSHAKE_RESPONSE" = false ->
      origin ev = senderOrigin (cfg s) ->
      handleMessage w' s ev = (s, [])).
Proof.
  intros Hdata.
  assert (Hv : _isMessageValid w' s (data ev) = (false, [])).
  { rewrite Hdata. unfold _isMessageValid, secureMessage.
    cbn [get]. rewrite lookup_assign_same.
    cbn [get lookup String.eqb Ascii.eqb Bool.eqb truthy negb].
    now rewrite orb_true_r. }
  split; [exact Hv|].
  intros Hty Ho. rewrite handleMessage_split. unfold accepts.
  rewrite Ho, String.eqb_refl, Hty; simpl.
  destruct (negb (truthy (data ev)) || negb (truthy (get (data ev) "type")));
    [reflexivity|].
  rewrite Hv. reflexivity.
Qed.

(** ** What a delivery can reach *)

Lemma tokenTransfer_invalid (w : world) (s : session) (message : value) :
  truthy (get (tokens_of message) "accessToken") = false
    \/ truthy (get (tokens_of message) "refreshToken") = false ->
  tokenTransfer w s message =
    (s, _updateStatus w s "Error: Received invalid token data" "error").
Proof.
  intros Hlack. unfold tokenTransfer.
  fold (payload_of message). fold (tokens_of message).
  destruct (truthy (tokens_of message)); simpl; [|reflexivity].
  destruct Hlack as [-> | ->]; simpl; [reflexivity|].
  now rewrite orb_true_r.
Qed.

(** The outward effects of one delivery: none, or those of a relayed
    transfer. *)
Lemma handleMessage_outward (w : world) (s : session) (ev : MessageEvent) :
  filter outward (snd (handleMessage w s ev)) = []
  \/ (fst (accepts w s ev) = true
      /\ is_str (get (data ev) "type") "TOKEN_TRANSFER" = true
      /\ handshakeComplete s = true
      /\ truthy (get (tokens_of (data ev)) "accessToken") = true
      /\ truthy (get (tokens_of (data ev)) "refreshToken") = true
      /\ filter outward (snd (handleMessage w s ev)) =
         match tokenStorage s with
         | Some _ =>
             [StoreTokens (tokens_of (data ev))
                (storeMetadata s (get (payload_of (data ev)) "userId")
                   (get (payload_of (data ev)) "issuedAt"))]
         | None => []
         end
         ++ match sourceWindow s with
            | Some peer =>
                [PostMessage peer (secureMessage w (tokenReceived w (data ev)))
                   (senderOrigin (cfg s))]
            | None => []
            end
         ++ match tokensReceivedCallback s with
            | IsFunction f =>
                [Callback f (tokens_of (data ev))
                   (VObj [("userId", get (payload_of (data ev)) "userId");
                          ("issuedAt", get (payload_of (data ev)) "issuedAt")])]
            | _ => []
            end).
Proof.
  destruct (filter outward (snd (handleMessage w s ev))) as [|e rest] eqn:E;
    [now left|].
  right.
  assert (Hne : filter outward (snd (handleMessage w s ev)) <> [])
    by (rewrite E; discriminate).
  assert (Hacc : fst (accepts w s ev) = true).
  { destruct (fst (accepts w s ev)) eqn:Ha; [reflexivity|].
    rewrite handleMessage_split, Ha in Hne. simpl in Hne.
    now rewrite accepts_console in Hne. }
  assert (Hd : handshakeComplete s = true
               /\ is_str (get (data ev) "type") "TOKEN_TRANSFER" = true).
  { apply (dispatch_outward w s ev). left.
    now rewrite handleMessage_split, Hacc in Hne. }
  destruct Hd as [Hdone Htype].
  rewrite <- E. clear E e rest.
  rewrite (handleMessage_transfer w s ev Hacc Htype Hdone) in *. simpl in *.
  assert (Hrec : filter outward
                   (if debug (cfg s)
                    then [Console Log "[WebApp B] Received message: "
                            (VStr "TOKEN_TRANSFER")]
                    else []) = [])
    by (now destruct (debug (cfg s))).
  rewrite filter_app, Hrec in *. simpl in *.
  destruct (truthy (get (tokens_of (data ev)) "accessToken")) eqn:Ha.
  2:{ rewrite (tokenTransfer_invalid w s (data ev) (or_introl Ha)) in Hne.
      simpl in Hne. now rewrite updateStatus_quiet in Hne. }
  destruct (truthy (get (tokens_of (data ev)) "refreshToken")) eqn:Hr.
  2:{ rewrite (tokenTransfer_invalid w s (data ev) (or_intror Hr)) in Hne.
      simpl in Hne. now rewrite updateStatus_quiet in Hne. }
  destruct (tokenTransfer_valid w s (data ev) Ha Hr) as [_ Hout].
  simpl in Hout. repeat split; trivial.
Qed.

Lemma filter_refine {A : Type} (f g : A -> bool) (l : list A) :
  (forall x, f x = true -> g x = true) ->
  filter f (filter g l) = filter f l.
Proof.
  intros Hfg. induction l as [|x l IH]; simpl; [reflexivity|].
  destruct (g x) eqn:Eg; simpl.
  - now rewrite IH.
  - destruct (f x) eqn:Ef; [|exact IH].
    apply Hfg in Ef. congruence.
Qed.

Lemma In_outward (e : effect) (done : list effect) :
  outward e = true -> In e done -> In e (filter outward done).
Proof. intros He Hin. apply filter_In. now split. Qed.

(** X10. Whatever [handleMessage] dispatches goes to the source window
    recorded at the handshake and nowhere else (never to the opener, never
    to the window the message came from): it is the TOKEN_RECEIVED envelope
    for that message, it answers a TOKEN_TRANSFER, and the handshake was
    complete. *)
Theorem replies_go_to_the_recorded_window
  (w : world) (s : session) (ev : MessageEvent)
  (target : window) (m : value) (targetOrigin : string) :
  In (PostMessage target m targetOrigin) (snd (handleMessage w s ev)) ->
  sourceWindow s = Some target
  /\ m = secureMessage w (tokenReceived w (data ev))
  /\ get m "type" = VStr "TOKEN_RECEIVED"
  /\ get m "requestId" = get (data ev) "requestId"
  /\ targetOrigin = senderOrigin (cfg s)
  /\ handshakeComplete s = true
  /\ is_str (get (data ev) "type") "TOKEN_TRANSFER" = true.
Proof.
  intros Hin. apply (In_outward (PostMessage target m targetOrigin) _ eq_refl) in Hin.
  destruct (handleMessage_outward w s ev)
    as [E | (_ & Htype & Hdone & _ & _ & E)]; rewrite E in Hin; [destruct Hin|].
  apply in_app_or in Hin. destruct Hin as [Hin|Hin].
  { destruct (tokenStorage s); simpl in Hin; intuition discriminate. }
  apply in_app_or in Hin. destruct Hin as [Hin|Hin].
  2:{ destruct (tokensReceivedCallback s); simpl in Hin; intuition discriminate. }
  destruct (sourceWindow s) as [peer|]; simpl in Hin; [|destruct Hin].
  destruct Hin as [Hin|[]]. injection Hin as -> <- <-.
  repeat split; trivial.
Qed.

(** X11. Along any run of a session, whatever is handed to the token store
    has both tokens and is labelled with the sender origin the session was
    constructed with. *)
Theorem stored_tokens_are_complete_and_labelled
  (o : options) (calls : list (world * call)) (tokens metadata : value) :
  In (StoreTokens tokens metadata) (snd (run (constructor o) calls)) ->
  truthy (get tokens "accessToken") = true
  /\ truthy (get tokens "refreshToken") = true
  /\ get metadata "source" = VStr (senderOrigin (cfg (constructor o))).
Proof.
  assert (Hstep : forall w s c,
             In (StoreTokens tokens metadata) (snd (step w s c)) ->
             truthy (get tokens "accessToken") = true
             /\ truthy (get tokens "refreshToken") = true
             /\ get metadata "source" = VStr (senderOrigin (cfg s))).
  { intros w s c Hin. apply (In_outward (StoreTokens tokens metadata) _ eq_refl) in Hin.
    destruct c; simpl in Hin; try (destruct Hin; fail).
    - unfold init in Hin. simpl in Hin.
      destruct (debug (cfg s)); destruct Hin.
    - unfold initiateHandshake in Hin.
      destruct (opener w); [destruct (postMessage_throws w)|]; simpl in Hin;
        rewrite ?filter_app, ?updateStatus_quiet in Hin;
        try destruct (debug (cfg s)); simpl in Hin; intuition discriminate.
    - unfold handshakeTimeout in Hin.
      destruct (negb (handshakeComplete s)); simpl in Hin;
        rewrite ?updateStatus_quiet in Hin; destruct Hin.
    - destruct (debug (cfg s)); simpl in Hin; destruct Hin.
    - destruct (handleMessage_outward w s ev)
        as [E | (_ & _ & _ & Ha & Hr & E)]; rewrite E in Hin; [destruct Hin|].
      apply in_app_or in Hin. destruct Hin as [Hin|Hin].
      + destruct (tokenStorage s); simpl in Hin; [|destruct Hin].
        destruct Hin as [Hin|[]]. injection Hin as <- <-. auto.
      + apply in_app_or in Hin. destruct Hin as [Hin|Hin].
        * destruct (sourceWindow s); simpl in Hin; intuition discriminate.
        * destruct (tokensReceivedCallback s); simpl in Hin; intuition discriminate. }
  assert (Hrun : forall calls s,
             In (StoreTokens tokens metadata) (snd (run s calls)) ->
             truthy (get tokens "accessToken") = true
             /\ truthy (get tokens "refreshToken") = true
             /\ get metadata "source" = VStr (senderOrigin (cfg s))).
  { clear calls. induction calls as [|[w c] rest IH]; intros s; simpl; [tauto|].
    specialize (Hstep w s c). destruct (step_state w s c) as [Hcfg _].
    destruct (step w s c) as [s1 done]; simpl in *.
    specialize (IH s1). rewrite Hcfg in IH.
    destruct (run s1 rest) as [s2 later]; simpl in *.
    intros Hin. apply in_app_or in Hin. tauto. }
  apply Hrun.
Qed.

(** X12. [handleMessage] calls the callback at most once per delivery, and
    only the function that is registered at that moment: with the tokens of
    that message, which carries both, and its [{userId, issuedAt}]. A value
    registered that is not a function is never called. *)
Theorem callback_is_the_registered_function
  (w : world) (s : session) (ev : MessageEvent)
  (f : function) (tokens metadata : value) :
  In (Callback f tokens metadata) (snd (handleMessage w s ev)) ->
  tokensReceivedCallback s = IsFunction f
  /\ tokens = tokens_of (data ev)
  /\ metadata = VObj [("userId", get (payload_of (data ev)) "userId");
                      ("issuedAt", get (payload_of (data ev)) "issuedAt")]
  /\ truthy (get tokens "accessToken") = true
  /\ truthy (get tokens "refreshToken") = true
  /\ filter is_callback (snd (handleMessage w s ev)) = [Callback f tokens metadata].
Proof.
  intros Hin. apply (In_outward (Callback f tokens metadata) _ eq_refl) in Hin.
  assert (Hsub : forall e, is_callback e = true -> outward e = true)
    by (intros e; destruct e; simpl; auto).
  rewrite <- (filter_refine is_callback outward _ Hsub).
  destruct (handleMessage_outward w s ev)
    as [E | (_ & _ & _ & Ha & Hr & E)]; rewrite E in *; [destruct Hin|].
  apply in_app_or in Hin. destruct Hin as [Hin|Hin].
  { destruct (tokenStorage s); simpl in Hin; intuition discriminate. }
  apply in_app_or in Hin. destruct Hin as [Hin|Hin].
  { destruct (sourceWindow s); simpl in Hin; intuition discriminate. }
  destruct (tokensReceivedCallback s) as [|g|v]; simpl in Hin; try destruct Hin.
  2:{ destruct H. }
  injection H as -> <- <-.
  repeat split; trivial.
  destruct (tokenStorage s), (sourceWindow s); reflexivity.
Qed.

(** ** What a delivery changes *)

(** X13. A delivery changes the connection only if it is a
    HANDSHAKE_RESPONSE: for a message of any other type, accepted or not,
    [handshakeComplete], [connectionStatus] and the recorded source window
    are as before, a relayed TOKEN_TRANSFER included (the session stays
    connected). No delivery of any type changes the configuration or the
    registered callback. *)
Theorem only_a_response_changes_the_connection
  (w : world) (s : session) (ev : MessageEvent) :
  cfg (fst (handleMessage w s ev)) = cfg s
  /\ tokensReceivedCallback (fst (handleMessage w s ev)) = tokensReceivedCallback s
  /\ (is_str (get (data ev) "type") "HANDSHAKE_RESPONSE" = false ->
      handshakeComplete (fst (handleMessage w s ev)) = handshakeComplete s
      /\ connectionStatus (fst (handleMessage w s ev)) = connectionStatus s
      /\ sourceWindow (fst (handleMessage w s ev)) = sourceWindow s).
Proof.
  split; [|split].
  - destruct (handleMessage_state w s ev) as [-> | [-> | (_ & st & ->)]]; reflexivity.
  - destruct (handleMessage_state w s ev) as [-> | [-> | (_ & st & ->)]]; reflexivity.
  - intros Hty. rewrite handleMessage_split.
    destruct (fst (accepts w s ev)); [|auto].
    unfold dispatch. rewrite Hty.
    destruct (is_str (get (data ev) "type") "TOKEN_TRANSFER"); [|auto].
    destruct (handshakeComplete s) eqn:Hdone; simpl; [|auto].
    destruct (tokenTransfer_state w s (data ev)) as [E | [st E]];
      destruct (tokenTransfer w s (data ev)) as [s' done]; simpl in *; subst;
      simpl; auto.
Qed.

(** X14. A message from the configured origin that is empty or has no type
    is dropped without any effect, not even a debug line. An accepted
    message whose type is neither HANDSHAKE_RESPONSE nor TOKEN_TRANSFER (a
    HANDSHAKE_REQUEST or TOKEN_RECEIVED among them) leaves the session as it
    was and does nothing but, in debug mode, log its type. *)
Theorem other_messages_do_nothing (w : world) (s : session) (ev : MessageEvent) :
  origin ev = senderOrigin (cfg s) ->
  (truthy (data ev) = false \/ truthy (get (data ev) "type") = false ->
   handleMessage w s ev = (s, []))
  /\ (fst (accepts w s ev) = true ->
      is_str (get (data ev) "type") "HANDSHAKE_RESPONSE" = false ->
      is_str (get (data ev) "type") "TOKEN_TRANSFER" = false ->
      handleMessage w s ev =
        (s, if debug (cfg s)
            then [Console Log "[WebApp B] Received message: " (get (data ev) "type")]
            else [])).
Proof.
  intros Ho. split.
  - intros Hempty. unfold handleMessage, accepts.
    rewrite Ho, String.eqb_refl; simpl.
    destruct Hempty as [-> | ->]; simpl; [reflexivity|].
    now rewrite orb_true_r.
  - intros Hacc Hr Ht. rewrite handleMessage_split, Hacc.
    unfold dispatch. now rewrite Hr, Ht.
Qed.

Lemma transfer_before_handshake (w : world) (s : session) (ev : MessageEvent) :
  handshakeComplete s = false ->
  is_str (get (data ev) "type") "TOKEN_TRANSFER" = true ->
  fst (handleMessage w s ev) = s
  /\ filter outward (snd (handleMessage w s ev)) = [].
Proof.
  intros Hdone Htype. split.
  - rewrite handleMessage_split.
    destruct (fst (accepts w s ev)); [|reflexivity].
    unfold dispatch. rewrite (is_str_inv _ _ Htype); simpl.
    now rewrite Hdone.
  - destruct (handleMessage_outward w s ev) as [E | (_ & _ & Hc & _)];
      [exact E | congruence].
Qed.

(** ** [disconnect] *)

(** X15. [disconnect] removes the listener and puts the connection back to
    its initial state (not complete, 'disconnected', no source window)
    while keeping the configuration, the callback and the token store with
    what it holds; doing it twice gives the same session as once. A
    TOKEN_TRANSFER delivered after it is turned away: session unchanged,
    nothing stored, dispatched or called back. *)
Theorem disconnect_resets_the_connection
  (w : world) (s : session) (ev : MessageEvent) :
  handshakeComplete (fst (disconnect s)) = false
  /\ connectionStatus (fst (disconnect s)) = "disconnected"
  /\ sourceWindow (fst (disconnect s)) = None
  /\ cfg (fst (disconnect s)) = cfg s
  /\ tokenStorage (fst (disconnect s)) = tokenStorage s
  /\ tokensReceivedCallback (fst (disconnect s)) = tokensReceivedCallback s
  /\ In RemoveMessageListener (snd (disconnect s))
  /\ fst (disconnect (fst (disconnect s))) = fst (disconnect s)
  /\ (is_str (get (data ev) "type") "TOKEN_TRANSFER" = true ->
      fst (handleMessage w (fst (disconnect s)) ev) = fst (disconnect s)
      /\ filter outward (snd (handleMessage w (fst (disconnect s)) ev)) = []).
Proof.
  repeat split; try reflexivity; try (now left).
  - now apply transfer_before_handshake.
  - now apply transfer_before_handshake.
Qed.

(** X16. [disconnect] does not cancel the handshake timer: when the timer
    fires on a session that was disconnected, the time-out is reported on
    the status line, also when the handshake had completed before the
    disconnect; the session stays as [disconnect] left it. *)
Theorem timer_after_disconnect_reports (w : world) (s : session) :
  handshakeTimeout w (fst (disconnect s)) =
    (fst (disconnect s),
     _updateStatus w s "Handshake timed out. Please try again." "error")
  /\ (handshakeComplete s = true -> handshakeTimeout w s = (s, [])).
Proof.
  split; [reflexivity|].
  intros Hdone. unfold handshakeTimeout. now rewrite Hdone.
Qed.

(** ** Invariants of a run *)

Lemma step_peer (w : world) (s : session) (c : call) :
  (handshakeComplete s = false -> sourceWindow s = None) ->
  handshakeComplete (fst (step w s c)) = false ->
  sourceWindow (fst (step w s c)) = None.
Proof.
  intros Hinv. destruct c; simpl; trivial.
  - unfold initiateHandshake.
    destruct (opener w); [destruct (postMessage_throws w)|]; simpl; auto.
  - unfold handshakeTimeout. destruct (negb (handshakeComplete s)); simpl; auto.
  - destruct (handleMessage_state w s ev) as [-> | [-> | (Hdone & st & ->)]];
      simpl; auto; discriminate.
Qed.

(** X17. In every state a session can reach from its construction, the two
    fields that carry the connection state agree ([handshakeComplete] is
    true exactly when [connectionStatus] is 'connected', and the status is
    'disconnected' otherwise), a session that is not connected holds no
    source window, and the configuration is the one given at construction. *)
Theorem connection_fields_agree (o : options) (calls : list (world * call)) :
  (handshakeComplete (fst (run (constructor o) calls)) = true <->
   connectionStatus (fst (run (constructor o) calls)) = "connected")
  /\ (handshakeComplete (fst (run (constructor o) calls)) = false ->
      connectionStatus (fst (run (constructor o) calls)) = "disconnected"
      /\ sourceWindow (fst (run (constructor o) calls)) = None)
  /\ cfg (fst (run (constructor o) calls)) = cfg (constructor o).
Proof.
  assert (Hpeer : forall calls s,
             (handshakeComplete s = false -> sourceWindow s = None) ->
             handshakeComplete (fst (run s calls)) = false ->
             sourceWindow (fst (run s calls)) = None).
  { clear. induction calls as [|[w c] rest IH]; intros s Hinv; simpl; [exact Hinv|].
    pose proof (step_peer w s c Hinv) as Hstep.
    destruct (step w s c) as [s1 done]; simpl in *.
    specialize (IH s1 Hstep).
    now destruct (run s1 rest) as [s2 later]. }
  destruct (run_state calls (constructor o)) as [Hcfg Hco].
  specialize (Hco (or_intror (conj eq_refl eq_refl))).
  specialize (Hpeer calls (constructor o) (fun _ => eq_refl)).
  split; [|split; [|exact Hcfg]].
  - destruct Hco as [[Hc Hs] | [Hc Hs]]; rewrite Hc, Hs; split; auto; discriminate.
  - intros Hf. split; [|auto].
    destruct Hco as [[Hc Hs] | [Hc Hs]]; [congruence | exact Hs].
Qed.

(** ** The relay and the store together *)

(** X18. After a TOKEN_TRANSFER was relayed to a configured store, the store
    returns the tokens of that message and, as metadata, its [userId] and
    [issuedAt], the configured sender origin as [source] and the time of the
    delivery as [receivedAt], whatever the store held before: a later
    transfer replaces an earlier one. *)
Theorem relayed_tokens_can_be_read_back
  (w : world) (s : session) (ev : MessageEvent) (st : TokenStorage) :
  fst (accepts w s ev) = true ->
  is_str (get (data ev) "type") "TOKEN_TRANSFER" = true ->
  handshakeComplete s = true ->
  truthy (get (tokens_of (data ev)) "accessToken") = true ->
  truthy (get (tokens_of (data ev)) "refreshToken") = true ->
  tokenStorage s = Some st ->
  exists st',
    tokenStorage (fst (handleMessage w s ev)) = Some st'
    /\ getAccessToken st' = get (tokens_of (data ev)) "accessToken"
    /\ getRefreshToken st' = get (tokens_of (data ev)) "refreshToken"
    /\ hasTokens st' = true
    /\ getTokenMetadata st' =
       VObj [("userId", get (payload_of (data ev)) "userId");
             ("issuedAt", get (payload_of (data ev)) "issuedAt");
             ("source", VStr (senderOrigin (cfg s)));
             ("receivedAt", VStr (toISOString (now w)))].
Proof.
  intros Hacc Htype Hdone Ha Hr Hst.
  rewrite (handleMessage_transfer w s ev Hacc Htype Hdone); simpl.
  destruct (tokenTransfer_valid w s (data ev) Ha Hr) as [E _]. simpl in E.
  rewrite E, Hst. eexists. split; [reflexivity|].
  rewrite (storeTokens_accepted w st _ _ Ha Hr); simpl.
  unfold hasTokens; simpl. rewrite Ha, Hr. repeat split.
Qed.

(** ** The token panel *)

Lemma updateStatus_no_hide (w : world) (s : session) (message kind : string) :
  filter is_hide (_updateStatus w s message kind) = [].
Proof.
  unfold _updateStatus.
  destruct (element w "statusContainer" && element w "statusMessage");
    destruct (debug (cfg s)); reflexivity.
Qed.

Lemma accepts_no_hide (w : world) (s : session) (ev : MessageEvent) :
  filter is_hide (snd (accepts w s ev)) = [].
Proof.
  unfold accepts, _isMessageValid.
  repeat match goal with
         | |- context [if ?b then _ else _] => destruct b; simpl
         end; reflexivity.
Qed.

Lemma sendMessage_no_hide (w : world) (s : session) (message : value) :
  filter is_hide (snd (_sendMessage w s message)) = [].
Proof.
  assert (Hpost : forall t, filter is_hide (snd (post w s t message)) = []).
  { intros t. unfold post. destruct (postMessage_throws w); simpl.
    - rewrite filter_app, updateStatus_no_hide. now destruct (debug (cfg s)).
    - now destruct (debug (cfg s)). }
  unfold _sendMessage.
  destruct (negb (isSome (sourceWindow s)) && negb (isSome (opener w))).
  { simpl. now destruct (debug (cfg s) && _). }
  destruct (opener w), (sourceWindow s);
    try destruct (is_str (get message "type") "HANDSHAKE_REQUEST");
    try apply Hpost; reflexivity.
Qed.

(** What [_updateTokenInfo] writes when the store of the session holds
    tokens and the page has the panel. *)
Lemma updateTokenInfo_shown (w : world) (s : session) (st : TokenStorage) :
  tokenStorage s = Some st -> hasTokens st = true ->
  filter is_hide (_updateTokenInfo w s) = []
  /\ (element w "tokenInfoContainer" = true ->
      In (ClassListRemove "tokenInfoContainer" "hidden") (_updateTokenInfo w s)
      /\ (element w "userIdDisplay" = true ->
          In (SetTextContent "userIdDisplay"
                (js_or (get (getTokenMetadata st) "userId") (VStr "Unknown")))
            (_updateTokenInfo w s))
      /\ (element w "tokenReceivedAtDisplay" = true ->
          In (SetTextContent "tokenReceivedAtDisplay"
                (js_or (get (getTokenMetadata st) "receivedAt")
                   (VStr (toISOString (now w)))))
            (_updateTokenInfo w s))).
Proof.
  intros Hst Hhas. unfold _updateTokenInfo. rewrite Hst, Hhas.
  change (js_or (getTokenMetadata st) (VObj [])) with (getTokenMetadata st).
  destruct (element w "tokenInfoContainer"); simpl.
  2:{ split; [reflexivity | discriminate]. }
  split.
  - destruct (element w "userIdDisplay"), (element w "tokenStatusDisplay"),
      (element w "tokenReceivedAtDisplay"); reflexivity.
  - intros _. split; [|split].
    + apply in_or_app; right. apply in_or_app; right.
      apply in_or_app; right. now left.
    + intros ->. apply in_or_app; left. now left.
    + intros ->. apply in_or_app; right. apply in_or_app; right.
      apply in_or_app; left. now left.
Qed.

Lemma tokenTransfer_no_hide (w : world) (s : session) (message : value) :
  filter is_hide (snd (tokenTransfer w s message)) = [].
Proof.
  destruct (truthy (get (tokens_of message) "accessToken")) eqn:Ha.
  2:{ rewrite (tokenTransfer_invalid w s message (or_introl Ha)).
      apply updateStatus_no_hide. }
  destruct (truthy (get (tokens_of message) "refreshToken")) eqn:Hr.
  2:{ rewrite (tokenTransfer_invalid w s message (or_intror Hr)).
      apply updateStatus_no_hide. }
  destruct (get_object _ _ Ha) as [fs Efs].
  unfold tokenTransfer. fold (payload_of message). fold (tokens_of message).
  rewrite Ha, Hr, Efs; simpl. rewrite <- Efs.
  destruct (tokenStorage s) as [st|] eqn:Est.
  - rewrite (storeTokens_accepted w st _ _ Ha Hr). cbn [fst snd].
    match goal with
    | |- context [_updateTokenInfo w ?s1] =>
        destruct (updateTokenInfo_shown w s1 _ eq_refl) as [Hinfo _]
    end.
    { unfold hasTokens; simpl. now rewrite Ha, Hr. }
    cbn [filter is_hide]. rewrite !filter_app, Hinfo, updateStatus_no_hide,
      sendMessage_no_hide.
    cbn [tokensReceivedCallback with_tokenStorage].
    destruct (ts_debug st), (tokensReceivedCallback s); reflexivity.
  - cbn [snd]. rewrite !filter_app, updateStatus_no_hide, sendMessage_no_hide.
    unfold _updateTokenInfo. rewrite Est.
    destruct (tokensReceivedCallback s); reflexivity.
Qed.

(** X19. No delivery ever hides the token panel: [handleMessage] reaches
    [_updateTokenInfo] only after the store accepted tokens. When a transfer
    is relayed to a configured store on a page that has the panel, the panel
    is shown, the user id display gets the message's [userId], or 'Unknown'
    when that is missing, and the received-at display gets the time of the
    delivery. *)
Theorem delivery_shows_the_token_panel
  (w : world) (s : session) (ev : MessageEvent) :
  filter is_hide (snd (handleMessage w s ev)) = []
  /\ (fst (accepts w s ev) = true ->
      is_str (get (data ev) "type") "TOKEN_TRANSFER" = true ->
      handshakeComplete s = true ->
      truthy (get (tokens_of (data ev)) "accessToken") = true ->
      truthy (get (tokens_of (data ev)) "refreshToken") = true ->
      isSome (tokenStorage s) = true ->
      element w "tokenInfoContainer" = true ->
      In (ClassListRemove "tokenInfoContainer" "hidden") (snd (handleMessage w s ev))
      /\ (element w "userIdDisplay" = true ->
          In (SetTextContent "userIdDisplay"
                (js_or (get (payload_of (data ev)) "userId") (VStr "Unknown")))
            (snd (handleMessage w s ev)))
      /\ (element w "tokenReceivedAtDisplay" = true ->
          In (SetTextContent "tokenReceivedAtDisplay" (VStr (toISOString (now w))))
            (snd (handleMessage w s ev)))).
Proof.
  split.
  - rewrite handleMessage_split.
    destruct (fst (accepts w s ev)); [|apply accepts_no_hide].
    unfold dispatch.
    assert (Hrec : forall v, filter is_hide
                     (if debug (cfg s)
                      then [Console Log "[WebApp B] Received message: " v]
                      else []) = [])
      by (intros v; now destruct (debug (cfg s))).
    destruct (is_str (get (data ev) "type") "HANDSHAKE_RESPONSE"); simpl.
    { now rewrite filter_app, Hrec, updateStatus_no_hide. }
    destruct (is_str (get (data ev) "type") "TOKEN_TRANSFER"); simpl;
      [|apply Hrec].
    destruct (handshakeComplete s); simpl.
    + pose proof (tokenTransfer_no_hide w s (data ev)) as Ht.
      destruct (tokenTransfer w s (data ev)) as [s' done]; simpl in *.
      now rewrite filter_app, Hrec, Ht.
    + now rewrite filter_app, Hrec, updateStatus_no_hide.
  - intros Hacc Htype Hdone Ha Hr Hstore Hpanel.
    destruct (tokenStorage s) as [st|] eqn:Est; [|discriminate].
    rewrite (handleMessage_transfer w s ev Hacc Htype Hdone). cbn [snd].
    destruct (get_object _ _ Ha) as [fs Efs].
    unfold tokenTransfer. fold (payload_of (data ev)). fold (tokens_of (data ev)).
    rewrite Ha, Hr, Efs, Est; simpl. rewrite <- Efs.
    rewrite (storeTokens_accepted w st _ _ Ha Hr). cbn [fst snd].
    match goal with
    | |- context [_updateTokenInfo w ?s1] =>
        destruct (updateTokenInfo_shown w s1 _ eq_refl) as [_ Hinfo]
    end.
    { unfold hasTokens; simpl. now rewrite Ha, Hr. }
    destruct (Hinfo Hpanel) as (Hshow & Huser & Hat).
    assert (Hin : forall e a b c d x,
               In e x -> In e (a ++ (b :: c) ++ d ++ x ++ snd (_sendMessage w
                 (with_tokenStorage s
                    {| ts_debug := ts_debug st;
                       accessToken := get (tokens_of (data ev)) "accessToken";
                       refreshToken := get (tokens_of (data ev)) "refreshToken";
                       tokenMetadata :=
                         VObj (assign "receivedAt" (VStr (toISOString (now w)))
                                 (spread (storeMetadata s
                                            (get (payload_of (data ev)) "userId")
                                            (get (payload_of (data ev)) "issuedAt")))) |})
                 (tokenReceived w (data ev))) ++
                 match tokensReceivedCallback s with
                 | IsFunction f =>
                     [Callback f (tokens_of (data ev))
                        (VObj [("userId", get (payload_of (data ev)) "userId");
                               ("issuedAt", get (payload_of (data ev)) "issuedAt")])]
                 | _ => []
                 end)).
    { intros e a b c d x Hx. apply in_or_app; right. apply in_or_app; right.
      apply in_or_app; right. apply in_or_app; left. exact Hx. }
    split; [|split].
    + apply Hin. exact Hshow.
    + intros Hu. apply Hin. exact (Huser Hu).
    + intros Hd. apply Hin. specialize (Hat Hd).
      unfold getTokenMetadata, js_or in Hat; simpl in Hat.
      now destruct (negb (toISOString (now w) =? "")%string).
Qed.

(** ** [setTokenStorage] and [onTokensReceived] *)

(** X20. The store and the callback a transfer reaches are the ones set
    last: after [setTokenStorage] and [onTokensReceived], a relayed transfer
    calls that store (none when it was set to nothing) and that callback
    (none when it is not a function), whatever was configured before; the
    acknowledgement does not depend on either. *)
Theorem setters_decide_who_receives
  (w : world) (s : session) (ev : MessageEvent)
  (ts : option TokenStorage) (cb : callback) :
  fst (accepts w s ev) = true ->
  is_str (get (data ev) "type") "TOKEN_TRANSFER" = true ->
  handshakeComplete s = true ->
  truthy (get (tokens_of (data ev)) "accessToken") = true ->
  truthy (get (tokens_of (data ev)) "refreshToken") = true ->
  filter outward
    (snd (handleMessage w (onTokensReceived (setTokenStorage s ts) cb) ev)) =
    match ts with
    | Some _ =>
        [StoreTokens (tokens_of (data ev))
           (storeMetadata s (get (payload_of (data ev)) "userId")
              (get (payload_of (data ev)) "issuedAt"))]
    | None => []
    end
    ++ match sourceWindow s with
       | Some peer =>
           [PostMessage peer (secureMessage w (tokenReceived w (data ev)))
              (senderOrigin (cfg s))]
       | None => []
       end
    ++ match cb with
       | IsFunction f =>
           [Callback f (tokens_of (data ev))
              (VObj [("userId", get (payload_of (data ev)) "userId");
                     ("issuedAt", get (payload_of (data ev)) "issuedAt")])]
       | _ => []
       end.
Proof.
  intros Hacc Htype Hdone Ha Hr.
  set (s' := onTokensReceived (setTokenStorage s ts) cb).
  assert (Hacc' : fst (accepts w s' ev) = true) by exact Hacc.
  rewrite (handleMessage_transfer w s' ev Hacc' Htype Hdone). cbn [snd].
  destruct (tokenTransfer_valid w s' (data ev) Ha Hr) as [_ Hout].
  simpl in Hout. rewrite filter_app, Hout.
  change (cfg s') with (cfg s).
  destruct (debug (cfg s)); reflexivity.
Qed.

End Coverage.

(** * The rest of the code on the concrete page *)

Section CoverageInstances.

#[local] Existing Instance ms_platform.

Lemma store_overrides_receivedAt :
  truthy (get both_tokens "accessToken") = true
  /\ getAccessToken
       (snd (fst (storeTokens page (new_TokenStorage false) both_tokens
                    (VObj [("userId", VStr "u1"); ("receivedAt", VStr "never")]))))
     = VStr "a"
  /\ get (getTokenMetadata
            (snd (fst (storeTokens page (new_TokenStorage false) both_tokens
                         (VObj [("userId", VStr "u1"); ("receivedAt", VStr "never")])))))
       "receivedAt" = VStr "1749091967000"
  /\ get (getTokenMetadata
            (snd (fst (storeTokens page (new_TokenStorage false) both_tokens
                         (VObj [("userId", VStr "u1"); ("receivedAt", VStr "never")])))))
       "userId" = VStr "u1".
Proof.
  destruct (storeTokens_then_read page (new_TokenStorage false) both_tokens
              [("userId", VStr "u1"); ("receivedAt", VStr "never")]
              eq_refl eq_refl) as (_ & Ha & _ & _ & Hrec & Hkeep).
  split; [reflexivity|]. split; [exact Ha|]. split; [exact Hrec|].
  apply (Hkeep "userId"). discriminate.
Defined.

Lemma store_refuses_access_token_alone :
  fst (fst (storeTokens page (new_TokenStorage true) access_only (VObj []))) = false
  /\ storeTokens page (new_TokenStorage true) access_only (VObj [])
     = (false, new_TokenStorage true, []).
Proof.
  split; [reflexivity|].
  apply (storeTokens_accepts_iff_both_tokens page (new_TokenStorage true)
           access_only (VObj [])).
  reflexivity.
Defined.

Lemma clear_after_store :
  hasTokens (snd (fst (storeTokens page (new_TokenStorage true) both_tokens (VObj []))))
  = true
  /\ hasTokens
       (fst (clearTokens
               (snd (fst (storeTokens page (new_TokenStorage true) both_tokens
                            (VObj []))))))
     = false
  /\ getTokenMetadata
       (fst (clearTokens
               (snd (fst (storeTokens page (new_TokenStorage true) both_tokens
                            (VObj []))))))
     = VObj [].
Proof.
  destruct (clearTokens_forgets_a_store page (new_TokenStorage true) both_tokens
              (VObj [])) as (_ & _ & Hhas & Hmeta & _).
  split; [reflexivity|]. split; [exact Hhas | exact Hmeta].
Defined.

Lemma store_after_mixed_calls :
  hasTokens
    (store_run (new_TokenStorage false)
       [(page, Store both_tokens (VObj [])); (page, Clear);
        (page, Store access_only (VObj []))]) = false
  /\ getAccessToken
       (store_run (new_TokenStorage false)
          [(page, Store both_tokens (VObj [])); (page, Clear);
           (page, Store access_only (VObj []))]) = VNull.
Proof.
  split; [reflexivity|].
  apply (store_holds_all_or_nothing false
           [(page, Store both_tokens (VObj [])); (page, Clear);
            (page, Store access_only (VObj []))]).
  reflexivity.
Defined.

(** On [orphan_page] the octets are 200, 201, ...: 200 mod 62 = 14 is 'O'. *)
Lemma generated_id_on_orphan_page :
  String.length (_generateId orphan_page 32) = 32%nat
  /\ String.get 0 (_generateId orphan_page 32) = Some "O"%char.
Proof.
  destruct (generateId_length_and_alphabet orphan_page 32) as (Hlen & _ & Hith).
  split; [exact Hlen|].
  rewrite (Hith 0%nat) by lia. reflexivity.
Defined.

Lemma handshake_without_opener :
  fst (fst (initiateHandshake orphan_page (constructor app_options))) = false
  /\ filter outward (snd (initiateHandshake orphan_page (constructor app_options))) = []
  /\ In (SetTimeout HandshakeTimeout 30000)
       (snd (initiateHandshake page (constructor app_options))).
Proof.
  destruct (initiateHandshake_outcome orphan_page (constructor app_options))
    as (_ & _ & Hquiet & _).
  destruct (initiateHandshake_outcome page (constructor app_options))
    as (_ & Htimer & _).
  split; [reflexivity|]. split; [exact (Hquiet eq_refl)|].
  apply Htimer. reflexivity.
Defined.

Lemma ping_goes_to_window_5 :
  is_str (get ping "type") "HANDSHAKE_REQUEST" = false
  /\ route page connected_to_5 ping = Some 5%nat
  /\ filter outward (snd (_sendMessage page connected_to_5 ping))
     = [PostMessage 5%nat (secureMessage page ping) "http://localhost:3002"]
  /\ fst (_sendMessage orphan_page (constructor app_options) ping) = false.
Proof.
  destruct (sendMessage_routing page connected_to_5 ping) as (Hout & _ & Hroute).
  destruct (sendMessage_routing orphan_page (constructor app_options) ping)
    as (_ & Hret & _).
  split; [reflexivity|]. split; [exact (Hroute eq_refl)|].
  split; [exact Hout | exact Hret].
Defined.

Lemma ping_metadata_replaced :
  get ping "metadata" = VStr "mine"
  /\ get (secureMessage page ping) "metadata"
     = VObj [("timestamp", VStr "1749091967000");
             ("sender", VStr "http://localhost:3003")]
  /\ get (secureMessage page ping) "type" = VStr "PING".
Proof.
  destruct (secureMessage_fields page
              [("type", VStr "PING"); ("metadata", VStr "mine")]) as [Hmeta Hkeep].
  split; [reflexivity|]. split; [exact Hmeta|].
  apply (Hkeep "type"). discriminate.
Defined.

Lemma echoed_ping_dropped :
  data echoed_ping = secureMessage page ping
  /\ handleMessage page app_connected echoed_ping = (app_connected, []).
Proof.
  split; [reflexivity|].
  destruct (own_envelopes_do_not_validate page page app_connected ping echoed_ping
              eq_refl) as [_ Hdrop].
  apply Hdrop; reflexivity.
Defined.

Lemma ack_is_dispatched :
  In (PostMessage 1%nat transfer_ack "http://localhost:3002")
    (snd (handleMessage page app_connected (token_transfer both_tokens))).
Proof.
  vm_compute. do 10 right. left. reflexivity.
Defined.

Lemma ack_goes_to_window_1 :
  In (PostMessage 1%nat transfer_ack "http://localhost:3002")
    (snd (handleMessage page app_connected (token_transfer both_tokens)))
  /\ sourceWindow app_connected = Some 1%nat
  /\ get transfer_ack "requestId" = VStr "r-42".
Proof.
  destruct (replies_go_to_the_recorded_window page app_connected
              (token_transfer both_tokens) _ _ _ ack_is_dispatched)
    as (Hpeer & _ & _ & Hrid & _).
  split; [exact ack_is_dispatched|]. split; [exact Hpeer | exact Hrid].
Defined.

Lemma store_call_in_the_run :
  In (StoreTokens both_tokens
        (VObj [("userId", VStr "u1"); ("issuedAt", VNum 1749091960000);
               ("source", VStr "http://localhost:3002")]))
    (snd (run (constructor app_options) app_calls)).
Proof.
  vm_compute. do 13 right. left. reflexivity.
Defined.

Lemma stored_in_the_run_is_labelled :
  In (StoreTokens both_tokens
        (VObj [("userId", VStr "u1"); ("issuedAt", VNum 1749091960000);
               ("source", VStr "http://localhost:3002")]))
    (snd (run (constructor app_options) app_calls))
  /\ truthy (get both_tokens "refreshToken") = true
  /\ get (VObj [("userId", VStr "u1"); ("issuedAt", VNum 1749091960000);
                ("source", VStr "http://localhost:3002")]) "source"
     = VStr (senderOrigin (cfg (constructor app_options))).
Proof.
  destruct (stored_tokens_are_complete_and_labelled app_options app_calls _ _
              store_call_in_the_run) as (_ & Hr & Hsrc).
  split; [exact store_call_in_the_run|]. split; [exact Hr | exact Hsrc].
Defined.

Lemma callback_is_called :
  In (Callback 7%nat both_tokens
        (VObj [("userId", VStr "u1"); ("issuedAt", VNum 1749091960000)]))
    (snd (handleMessage page app_connected (token_transfer both_tokens))).
Proof.
  vm_compute. do 12 right. left. reflexivity.
Defined.

Lemma callback_7_called_once :
  In (Callback 7%nat both_tokens
        (VObj [("userId", VStr "u1"); ("issuedAt", VNum 1749091960000)]))
    (snd (handleMessage page app_connected (token_transfer both_tokens)))
  /\ tokensReceivedCallback app_connected = IsFunction 7%nat
  /\ filter is_callback
       (snd (handleMessage page app_connected (token_transfer both_tokens)))
     = [Callback 7%nat both_tokens
          (VObj [("userId", VStr "u1"); ("issuedAt", VNum 1749091960000)])].
Proof.
  destruct (callback_is_the_registered_function page app_connected
              (token_transfer both_tokens) _ _ _ callback_is_called)
    as (Hreg & _ & _ & _ & _ & Honce).
  split; [exact callback_is_called|]. split; [exact Hreg | exact Honce].
Defined.

Lemma transfer_keeps_the_connection :
  is_str (get (data (token_transfer both_tokens)) "type") "HANDSHAKE_RESPONSE" = false
  /\ connectionStatus
       (fst (handleMessage page app_connected (token_transfer both_tokens)))
     = connectionStatus app_connected
  /\ sourceWindow
       (fst (handleMessage page app_connected (token_transfer both_tokens)))
     = sourceWindow app_connected.
Proof.
  destruct (only_a_response_changes_the_connection page app_connected
              (token_transfer both_tokens)) as (_ & _ & Hkeep).
  destruct (Hkeep eq_refl) as (_ & Hstatus & Hwin).
  split; [reflexivity|]. split; [exact Hstatus | exact Hwin].
Defined.

Lemma fresh_ping_only_logged :
  origin (stamped (VNum 1749091967000) (VNum 1749092027000))
  = senderOrigin (cfg app_connected)
  /\ handleMessage page app_connected
       (stamped (VNum 1749091967000) (VNum 1749092027000))
     = (app_connected,
        [Console Log "[WebApp B] Received message: " (VStr "PING")]).
Proof.
  assert (Hacc : fst (accepts page app_connected
                        (stamped (VNum 1749091967000) (VNum 1749092027000))) = true)
    by (vm_compute; reflexivity).
  split; [reflexivity|].
  destruct (other_messages_do_nothing page app_connected
              (stamped (VNum 1749091967000) (VNum 1749092027000)) eq_refl)
    as [_ Hother].
  exact (Hother Hacc eq_refl eq_refl).
Defined.

Lemma transfer_after_disconnect :
  connectionStatus (fst (disconnect app_connected)) = "disconnected"
  /\ tokenStorage (fst (disconnect app_connected)) = tokenStorage app_connected
  /\ filter outward
       (snd (handleMessage page (fst (disconnect app_connected))
               (token_transfer both_tokens))) = [].
Proof.
  destruct (disconnect_resets_the_connection page app_connected
              (token_transfer both_tokens))
    as (_ & Hstatus & _ & _ & Hstore & _ & _ & _ & Hafter).
  split; [exact Hstatus|]. split; [exact Hstore|].
  exact (proj2 (Hafter eq_refl)).
Defined.

Lemma timer_after_disconnect_on_the_page :
  handshakeComplete app_connected = true
  /\ handshakeTimeout page (fst (disconnect app_connected)) =
       (fst (disconnect app_connected),
        [SetClassName "statusContainer" "status error";
         SetTextContent "statusMessage"
           (VStr "Handshake timed out. Please try again.");
         Console Log "[WebApp B] Handshake timed out. Please try again." VUndefined])
  /\ handshakeTimeout page app_connected = (app_connected, []).
Proof.
  destruct (timer_after_disconnect_reports page app_connected) as [Hfire Hidle].
  split; [reflexivity|]. split; [exact Hfire | exact (Hidle eq_refl)].
Defined.

Lemma fields_after_the_run :
  handshakeComplete (fst (run (constructor app_options) app_calls)) = true
  /\ connectionStatus (fst (run (constructor app_options) app_calls)) = "connected"
  /\ cfg (fst (run (constructor app_options) app_calls)) = cfg (constructor app_options).
Proof.
  destruct (connection_fields_agree app_options app_calls) as (Hiff & _ & Hcfg).
  split; [reflexivity|]. split; [apply Hiff; reflexivity | exact Hcfg].
Defined.

Lemma relayed_tokens_on_the_page :
  tokenStorage app_connected = Some (new_TokenStorage true)
  /\ exists st',
       tokenStorage (fst (handleMessage page app_connected (token_transfer both_tokens)))
       = Some st'
       /\ getAccessToken st' = VStr "a"
       /\ getRefreshToken st' = VStr "b"
       /\ hasTokens st' = true
       /\ getTokenMetadata st' =
          VObj [("userId", VStr "u1"); ("issuedAt", VNum 1749091960000);
                ("source", VStr "http://localhost:3002");
                ("receivedAt", VStr "1749091967000")].
Proof.
  assert (Hacc : fst (accepts page app_connected (token_transfer both_tokens)) = true)
    by (vm_compute; reflexivity).
  split; [reflexivity|].
  exact (relayed_tokens_can_be_read_back page app_connected
           (token_transfer both_tokens) (new_TokenStorage true)
           Hacc eq_refl eq_refl eq_refl eq_refl eq_refl).
Defined.

Lemma panel_shown_on_the_page :
  filter is_hide
    (snd (handleMessage page app_connected (token_transfer both_tokens))) = []
  /\ In (ClassListRemove "tokenInfoContainer" "hidden")
       (snd (handleMessage page app_connected (token_transfer both_tokens)))
  /\ In (SetTextContent "userIdDisplay" (VStr "u1"))
       (snd (handleMessage page app_connected (token_transfer both_tokens))).
Proof.
  assert (Hacc : fst (accepts page app_connected (token_transfer both_tokens)) = true)
    by (vm_compute; reflexivity).
  destruct (delivery_shows_the_token_panel page app_connected
              (token_transfer both_tokens)) as [Hnever Hshown].
  destruct (Hshown Hacc eq_refl eq_refl eq_refl eq_refl eq_refl eq_refl)
    as (Hpanel & Huser & _).
  split; [exact Hnever|]. split; [exact Hpanel | exact (Huser eq_refl)].
Defined.

Lemma store_set_later_is_used :
  fst (accepts page bare_connected (token_transfer both_tokens)) = true
  /\ filter outward
       (snd (handleMessage page
               (onTokensReceived
                  (setTokenStorage bare_connected (Some (new_TokenStorage false)))
                  (NotFunction (VStr "not a function")))
               (token_transfer both_tokens))) =
     [StoreTokens both_tokens
        (VObj [("userId", VStr "u1"); ("issuedAt", VNum 1749091960000);
               ("source", VStr "http://localhost:3002")]);
      PostMessage 1%nat transfer_ack "http://localhost:3002"].
Proof.
  assert (Hacc : fst (accepts page bare_connected (token_transfer both_tokens)) = true)
    by (vm_compute; reflexivity).
  split; [exact Hacc|].
  exact (setters_decide_who_receives page bare_connected (token_transfer both_tokens)
           (Some (new_TokenStorage false)) (NotFunction (VStr "not a function"))
           Hacc eq_refl eq_refl eq_refl eq_refl).
Defined.

End CoverageInstances.
